(** * GnuTLS X.509 CRL decoding, field extraction and bulk import

    A shallow embedding of lib/x509/crl.c (gnutls_x509_crl_* and
    gnutls_x509_crl_list_import{,2}) together with the properties of the
    field accessors and of the list importer.

    Conventions.
    - C integers are [Z]; every conversion the C code performs between
      [int], [unsigned int] and [size_t] is written out with [s32], [u32]
      and [u64] (LP64, two's complement).
    - A byte is a [Z] in 0..255; a byte buffer is a [list Z]; a pointer to a
      caller's buffer is an [option (list Z)], [None] being the NULL pointer.
    - A handle ([gnutls_x509_crl_t]) is an address into an explicit heap of
      [gnutls_x509_crl_int] objects; address 0 is NULL.
    - The ASN.1 library (libtasn1), the PEM codec and the allocator are
      collaborators of crl.c.  What crl.c observes of them is fixed in the
      [Collaborators] class below. *)

From Stdlib Require Import ZArith List Lia Bool Ascii String.
From stdpp Require Import base list.
Import ListNotations.
Local Open Scope Z_scope.

(** ** Machine integers *)

Definition u32 (x : Z) : Z := x mod 2 ^ 32.
Definition u64 (x : Z) : Z := x mod 2 ^ 64.
Definition s32 (x : Z) : Z := (x + 2 ^ 31) mod 2 ^ 32 - 2 ^ 31.
Definition u8 (x : Z) : Z := x mod 2 ^ 8.

Definition INT_MAX : Z := 2 ^ 31 - 1.


(** ** Byte strings *)

Definition bytes := list Z.

Definition len (b : bytes) : Z := Z.of_nat (length b).

Definition bytes_of_string (s : string) : bytes :=
  map (fun c => Z.of_N (N_of_ascii c)) (list_ascii_of_string s).


(** ** Result codes *)

(** Modelled from the spec: the error kinds of section 7 under the numeric
    values of the public header gnutls.h, which is not among the sources. *)
Definition GNUTLS_E_SUCCESS : Z := 0.
Definition GNUTLS_E_MEMORY_ERROR : Z := -25.
Definition GNUTLS_E_BASE64_DECODING_ERROR : Z := -34.
Definition GNUTLS_E_CERTIFICATE_ERROR : Z := -43.
Definition GNUTLS_E_INVALID_REQUEST : Z := -50.
Definition GNUTLS_E_SHORT_MEMORY_BUFFER : Z := -51.
Definition GNUTLS_E_REQUESTED_DATA_NOT_AVAILABLE : Z := -56.
Definition GNUTLS_E_FILE_ERROR : Z := -64.
Definition GNUTLS_E_ASN1_ELEMENT_NOT_FOUND : Z := -67.
Definition GNUTLS_E_ASN1_IDENTIFIER_NOT_FOUND : Z := -68.
Definition GNUTLS_E_ASN1_DER_ERROR : Z := -69.
Definition GNUTLS_E_ASN1_VALUE_NOT_FOUND : Z := -70.
Definition GNUTLS_E_ASN1_GENERIC_ERROR : Z := -71.
Definition GNUTLS_E_ASN1_VALUE_NOT_VALID : Z := -72.
Definition GNUTLS_E_ASN1_TAG_ERROR : Z := -73.
Definition GNUTLS_E_ASN1_TAG_IMPLICIT : Z := -74.
Definition GNUTLS_E_ASN1_TYPE_ANY_ERROR : Z := -75.
Definition GNUTLS_E_ASN1_SYNTAX_ERROR : Z := -76.
Definition GNUTLS_E_ASN1_DER_OVERFLOW : Z := -77.
Definition GNUTLS_E_X509_UNSUPPORTED_EXTENSION : Z := -327.

(** Modelled from the spec: the result codes of the Structure Adapter under
    the values of libtasn1.h, which is not among the sources.  All of them
    are non-negative. *)
Definition ASN1_SUCCESS : Z := 0.
Definition ASN1_FILE_NOT_FOUND : Z := 1.
Definition ASN1_ELEMENT_NOT_FOUND : Z := 2.
Definition ASN1_IDENTIFIER_NOT_FOUND : Z := 3.
Definition ASN1_DER_ERROR : Z := 4.
Definition ASN1_VALUE_NOT_FOUND : Z := 5.
Definition ASN1_GENERIC_ERROR : Z := 6.
Definition ASN1_VALUE_NOT_VALID : Z := 7.
Definition ASN1_TAG_ERROR : Z := 8.
Definition ASN1_TAG_IMPLICIT : Z := 9.
Definition ASN1_ERROR_TYPE_ANY : Z := 10.
Definition ASN1_SYNTAX_ERROR : Z := 11.
Definition ASN1_MEM_ERROR : Z := 12.
Definition ASN1_MEM_ALLOC_ERROR : Z := 13.
Definition ASN1_DER_OVERFLOW : Z := 14.

(** Modelled from the spec: [_gnutls_asn2err] of gnutls_errors.c, the
    translation of an adapter failure into the library's error kinds
    (section 7: a short buffer stays a ShortBuffer, every other adapter
    failure becomes its DecodeError). *)
Definition _gnutls_asn2err (asn_err : Z) : Z :=
  if asn_err =? ASN1_FILE_NOT_FOUND then GNUTLS_E_FILE_ERROR
  else if asn_err =? ASN1_ELEMENT_NOT_FOUND then GNUTLS_E_ASN1_ELEMENT_NOT_FOUND
  else if asn_err =? ASN1_IDENTIFIER_NOT_FOUND then GNUTLS_E_ASN1_IDENTIFIER_NOT_FOUND
  else if asn_err =? ASN1_DER_ERROR then GNUTLS_E_ASN1_DER_ERROR
  else if asn_err =? ASN1_VALUE_NOT_FOUND then GNUTLS_E_ASN1_VALUE_NOT_FOUND
  else if asn_err =? ASN1_GENERIC_ERROR then GNUTLS_E_ASN1_GENERIC_ERROR
  else if asn_err =? ASN1_VALUE_NOT_VALID then GNUTLS_E_ASN1_VALUE_NOT_VALID
  else if asn_err =? ASN1_TAG_ERROR then GNUTLS_E_ASN1_TAG_ERROR
  else if asn_err =? ASN1_TAG_IMPLICIT then GNUTLS_E_ASN1_TAG_IMPLICIT
  else if asn_err =? ASN1_ERROR_TYPE_ANY then GNUTLS_E_ASN1_TYPE_ANY_ERROR
  else if asn_err =? ASN1_SYNTAX_ERROR then GNUTLS_E_ASN1_SYNTAX_ERROR
  else if asn_err =? ASN1_MEM_ERROR then GNUTLS_E_SHORT_MEMORY_BUFFER
  else if asn_err =? ASN1_MEM_ALLOC_ERROR then GNUTLS_E_MEMORY_ERROR
  else if asn_err =? ASN1_DER_OVERFLOW then GNUTLS_E_ASN1_DER_OVERFLOW
  else GNUTLS_E_ASN1_GENERIC_ERROR.


(** ** The decoded structures *)

(** PKIX1.Extension: OID in dotted-decimal text, critical flag, raw value. *)
Record Extension := {
  extnID : bytes;
  critical : bool;
  extnValue : bytes
}.

(** One entry of tbsCertList.revokedCertificates. *)
Record RevokedCertificate := {
  userCertificate : bytes;
  revocationDate : Z
}.

(** PKIX1.CertificateList, restricted to the fields read below.  OPTIONAL
    fields that the encoding leaves out are [None]: the decoder removes
    them from the tree.  The signature is a BIT STRING: its octets and the
    number of unused bits of the last octet. *)
Record CertificateList := {
  tbsCertList_version : option bytes;
  tbsCertList_revokedCertificates : option (list RevokedCertificate);
  tbsCertList_crlExtensions : option (list Extension);
  signature_octets : bytes;
  signature_unused_bits : Z
}.

(** PKIX1.AuthorityKeyIdentifier: either the plain keyIdentifier or the
    authorityCertIssuer / authorityCertSerialNumber pair. *)
Record AuthorityKeyIdentifier := {
  keyIdentifier : option bytes;
  authorityCertIssuer : option (list bytes);
  authorityCertSerialNumber : option bytes
}.

(** An ASN1_TYPE: no structure at all, a created element without values,
    or a decoded structure of one of the grammars crl.c asks for. *)
Inductive ASN1_TYPE :=
| ASN1_TYPE_EMPTY
| ASN1_created (grammar : string)
| ASN1_CertificateList (c : CertificateList)
| ASN1_AuthorityKeyIdentifier (a : AuthorityKeyIdentifier)
| ASN1_CertificateSerialNumber (content : bytes).

(** The structural paths crl.c builds, one constructor per format string.
    The index is the value printed by [%u]. *)
Inductive asn1_name :=
| name_signature                       (* "signature" *)
| name_version                         (* "tbsCertList.version" *)
| name_revokedCertificates             (* "tbsCertList.revokedCertificates" *)
| name_extnID (k : Z)                  (* "tbsCertList.crlExtensions.?%u.extnID" *)
| name_critical (k : Z)                (* "tbsCertList.crlExtensions.?%u.critical" *)
| name_extnValue (k : Z)               (* "tbsCertList.crlExtensions.?%u.extnValue" *)
| name_keyIdentifier                   (* "keyIdentifier" *)
| name_authorityCertSerialNumber       (* "authorityCertSerialNumber" *)
| name_root.                           (* "" *)

(** What [asn1_read_value] finds under a name. *)
Inductive asn1_node :=
| node_octets (content : bytes)        (* INTEGER, OCTET STRING: the octets *)
| node_text (text : bytes)             (* OBJECT IDENTIFIER, BOOLEAN: a C string *)
| node_bits (octets : bytes) (unused : Z)  (* BIT STRING *)
| node_no_value.

Definition TRUE_text : bytes := bytes_of_string "TRUE".
Definition FALSE_text : bytes := bytes_of_string "FALSE".

(** The [k]-th child [?k] of a SEQUENCE OF, counted from 1. *)
Definition nth_child {A} (l : option (list A)) (k : Z) : option A :=
  match l with
  | None => None
  | Some l => if 1 <=? k then l !! Z.to_nat (k - 1) else None
  end.

Definition asn1_find_node (t : ASN1_TYPE) (name : asn1_name) : option asn1_node :=
  match t, name with
  | ASN1_CertificateList c, name_signature =>
      Some (node_bits (signature_octets c) (signature_unused_bits c))
  | ASN1_CertificateList c, name_version =>
      node_octets <$> tbsCertList_version c
  | ASN1_CertificateList c, name_extnID k =>
      (fun e => node_text (extnID e)) <$> nth_child (tbsCertList_crlExtensions c) k
  | ASN1_CertificateList c, name_critical k =>
      (fun e => node_text (if critical e then TRUE_text else FALSE_text))
        <$> nth_child (tbsCertList_crlExtensions c) k
  | ASN1_CertificateList c, name_extnValue k =>
      (fun e => node_octets (extnValue e)) <$> nth_child (tbsCertList_crlExtensions c) k
  | ASN1_AuthorityKeyIdentifier a, name_keyIdentifier =>
      node_octets <$> keyIdentifier a
  | ASN1_AuthorityKeyIdentifier a, name_authorityCertSerialNumber =>
      node_octets <$> authorityCertSerialNumber a
  | ASN1_CertificateSerialNumber n, name_root => Some (node_octets n)
  | ASN1_created _, (name_extnID _ | name_critical _ | name_extnValue _) => None
  | ASN1_created _, _ => Some node_no_value
  | _, _ => None
  end.

(** Writing [data] at the start of the caller's buffer; nothing is written
    through a NULL pointer. *)
Definition store (value : option bytes) (data : bytes) : option bytes :=
  match value with
  | None => None
  | Some buf => Some (data ++ drop (length data) buf)
  end.

(** Modelled from the spec: the Structure Adapter's [read_value]
    (libtasn1's [asn1_read_value], not among the sources) under the calling
    convention crl.c uses: [value] is the output pointer, [vlen] the
    capacity on entry; the result is the return code, the buffer and the
    length written back through the length pointer.  The required length
    is always written back; the content is copied only when it fits.  A
    C string is delivered with its terminating NUL; the length of a BIT
    STRING is counted in bits. *)
Definition asn1_read_value (root : ASN1_TYPE) (name : asn1_name)
    (value : option bytes) (vlen : Z) : Z * option bytes * Z :=
  match asn1_find_node root name with
  | None => (ASN1_ELEMENT_NOT_FOUND, value, vlen)
  | Some node_no_value => (ASN1_VALUE_NOT_FOUND, value, vlen)
  | Some (node_octets content) =>
      if vlen <? len content then (ASN1_MEM_ERROR, value, len content)
      else (ASN1_SUCCESS, store value content, len content)
  | Some (node_text text) =>
      if vlen <? len text + 1 then (ASN1_MEM_ERROR, value, len text + 1)
      else (ASN1_SUCCESS, store value (text ++ [0]), len text + 1)
  | Some (node_bits octets unused) =>
      if vlen <? len octets then (ASN1_MEM_ERROR, value, 8 * len octets - unused)
      else (ASN1_SUCCESS, store value octets, 8 * len octets - unused)
  end.

(** Modelled from the spec: the Structure Adapter's [count_elements]
    (libtasn1's [asn1_number_of_elements], not among the sources): the
    number of [?n] children of the named element. *)
Definition asn1_number_of_elements (root : ASN1_TYPE) (name : asn1_name) : Z * Z :=
  match root, name with
  | ASN1_CertificateList c, name_revokedCertificates =>
      match tbsCertList_revokedCertificates c with
      | Some l => (ASN1_SUCCESS, Z.of_nat (length l))
      | None => (ASN1_ELEMENT_NOT_FOUND, 0)
      end
  | _, _ => (ASN1_ELEMENT_NOT_FOUND, 0)
  end.

(** ** Collaborators *)

(** The operations crl.c calls and does not define.
    - [alloc_fails n]: whether the allocation request made when [n] blocks
      have been handed out so far returns NULL.
    - [asn1_create_element g]: result code and the created element.
    - [asn1_der_decoding e der]: result code and the element after decoding.
    - [_gnutls_fbase64_decode header data]: a negative error, or a
      non-negative result with the decoded octets.
    - [_gnutls_parse_general_name c2 seq alt alt_size]: the return value
      and the three outputs [alt], [*alt_size], [*alt_type]. *)
Class Collaborators := {
  alloc_fails : nat -> bool;
  asn1_create_element : string -> Z * ASN1_TYPE;
  asn1_der_decoding : ASN1_TYPE -> bytes -> Z * ASN1_TYPE;
  _gnutls_fbase64_decode : bytes -> bytes -> Z * bytes;
  _gnutls_parse_general_name :
    ASN1_TYPE -> Z -> option bytes -> Z -> Z * option bytes * Z * Z
}.

(** ** The handle *)

Record gnutls_x509_crl_int := { crl : ASN1_TYPE }.

(** A [gnutls_x509_crl_t] as the accessors see it: NULL or the object. *)
Definition gnutls_x509_crl_t := option gnutls_x509_crl_int.

Record gnutls_datum_t := { data : option bytes; size : Z }.

(** Storing through an [unsigned int *] that may be NULL. *)
Definition store_uint (p : option Z) (v : Z) : option Z :=
  match p with
  | None => None
  | Some _ => Some v
  end.

(** ** Field accessors *)

Definition gnutls_x509_crl_get_signature (c : gnutls_x509_crl_t)
    (sig : option bytes) (sizeof_sig : Z) : Z * option bytes * Z :=
  match c with
  | None => (GNUTLS_E_INVALID_REQUEST, sig, sizeof_sig)
  | Some c =>
      let '(result, _, len0) := asn1_read_value (crl c) name_signature None 0 in
      if negb (result =? ASN1_MEM_ERROR) then (_gnutls_asn2err result, sig, sizeof_sig)
      else
        let bits := u32 len0 in
        if negb (bits mod 8 =? 0) then (GNUTLS_E_CERTIFICATE_ERROR, sig, sizeof_sig)
        else
          let len1 := s32 (bits / 8) in
          if sizeof_sig <? u32 len1 then (GNUTLS_E_SHORT_MEMORY_BUFFER, sig, bits / 8)
          else
            let '(result, sig', _) := asn1_read_value (crl c) name_signature sig len1 in
            if negb (result =? ASN1_SUCCESS) then (_gnutls_asn2err result, sig', sizeof_sig)
            else (0, sig', sizeof_sig)
  end.

(** [version] is the content of the local array [uint8_t version[8]] on
    entry, which C leaves indeterminate. *)
Definition gnutls_x509_crl_get_version (c : gnutls_x509_crl_t) (version : bytes) : Z :=
  match c with
  | None => GNUTLS_E_INVALID_REQUEST
  | Some c =>
      let '(result, version', _) :=
        asn1_read_value (crl c) name_version (Some version) 8 in
      if negb (result =? ASN1_SUCCESS) then _gnutls_asn2err result
      else u8 (nth 0 (default [] version') 0) + 1
  end.

Definition gnutls_x509_crl_get_crt_count (c : gnutls_x509_crl_t) : Z :=
  match c with
  | None => GNUTLS_E_INVALID_REQUEST
  | Some c =>
      let '(result, count) :=
        asn1_number_of_elements (crl c) name_revokedCertificates in
      if negb (result =? ASN1_SUCCESS) then 0 else count
  end.

(** [str_critical] is the content of the local [char str_critical[10]] on
    entry.  The outputs are the return value, [oid], [*sizeof_oid] and
    [*critical]. *)
Definition gnutls_x509_crl_get_extension_info (c : gnutls_x509_crl_t) (indx : Z)
    (oid : option bytes) (sizeof_oid : Z) (critical : option Z)
    (str_critical : bytes) : Z * option bytes * Z * option Z :=
  match c with
  | None => (GNUTLS_E_INVALID_REQUEST, oid, sizeof_oid, critical)
  | Some c =>
      let '(result, oid', len1) :=
        asn1_read_value (crl c) (name_extnID (u32 (indx + 1))) oid (s32 sizeof_oid) in
      let sizeof_oid' := u64 len1 in
      if result =? ASN1_ELEMENT_NOT_FOUND
      then (GNUTLS_E_REQUESTED_DATA_NOT_AVAILABLE, oid', sizeof_oid', critical)
      else if negb (result =? ASN1_SUCCESS)
      then (_gnutls_asn2err result, oid', sizeof_oid', critical)
      else
        let '(result, str_critical', _) :=
          asn1_read_value (crl c) (name_critical (u32 (indx + 1)))
            (Some str_critical) 10 in
        if negb (result =? ASN1_SUCCESS)
        then (_gnutls_asn2err result, oid', sizeof_oid', critical)
        else
          let t := nth 0 (default [] str_critical') 0 in
          (0, oid', sizeof_oid',
           store_uint critical (if t =? 84 (* 'T' *) then 1 else 0))
  end.

Definition gnutls_x509_crl_get_extension_data (c : gnutls_x509_crl_t) (indx : Z)
    (dat : option bytes) (sizeof_data : Z) : Z * option bytes * Z :=
  match c with
  | None => (GNUTLS_E_INVALID_REQUEST, dat, sizeof_data)
  | Some c =>
      let '(result, dat', len1) :=
        asn1_read_value (crl c) (name_extnValue (u32 (indx + 1))) dat (s32 sizeof_data) in
      let sizeof_data' := u64 len1 in
      if result =? ASN1_ELEMENT_NOT_FOUND
      then (GNUTLS_E_REQUESTED_DATA_NOT_AVAILABLE, dat', sizeof_data')
      else if result <? 0
      then (_gnutls_asn2err result, dat', sizeof_data')
      else (0, dat', sizeof_data')
  end.

(** ** Extension decoders *)

(** The [indx]-th extension (from 0) among those whose OID is [oid]. *)
Fixpoint find_extension (exts : list Extension) (oid : bytes) (indx : Z)
    : option Extension :=
  match exts with
  | [] => None
  | e :: rest =>
      if bool_decide (extnID e = oid)
      then if indx =? 0 then Some e else find_extension rest oid (indx - 1)
      else find_extension rest oid indx
  end.

(** Modelled from the spec: [_gnutls_x509_crl_get_extension] of
    extensions.c, the OID-addressed lookup of section 4.2: search the CRL's
    extensions by OID, skipping the occurrences before [indx]; hand out the
    raw value and the critical flag, or RequestedDataNotAvailable once the
    extensions are exhausted. *)
Definition _gnutls_x509_crl_get_extension (c : gnutls_x509_crl_int) (oid : bytes)
    (indx : Z) (_critical : option Z) : Z * gnutls_datum_t * option Z :=
  let none := {| data := None; size := 0 |} in
  match crl c with
  | ASN1_CertificateList cl =>
      match find_extension (default [] (tbsCertList_crlExtensions cl)) oid indx with
      | Some e =>
          (0, {| data := Some (extnValue e); size := u32 (len (extnValue e)) |},
           store_uint _critical (if critical e then 1 else 0))
      | None => (GNUTLS_E_REQUESTED_DATA_NOT_AVAILABLE, none, _critical)
      end
  | _ => (GNUTLS_E_REQUESTED_DATA_NOT_AVAILABLE, none, _critical)
  end.

Definition OID_AUTHORITY_KEY_ID : bytes := bytes_of_string "2.5.29.35".
Definition OID_CRL_NUMBER : bytes := bytes_of_string "2.5.29.20".

Definition datum_bytes (d : gnutls_datum_t) : bytes := default [] (data d).

Section Decoders.
Context `{Collaborators}.

(** Outputs: the return value, [*c2] and [*critical]. *)
Definition _get_authority_key_id (cert : gnutls_x509_crl_t) (critical : option Z)
    : Z * ASN1_TYPE * option Z :=
  let c2 := ASN1_TYPE_EMPTY in
  match cert with
  | None => (GNUTLS_E_INVALID_REQUEST, c2, critical)
  | Some cert =>
      let '(ret, id, critical) :=
        _gnutls_x509_crl_get_extension cert OID_AUTHORITY_KEY_ID 0 critical in
      if ret <? 0 then (ret, c2, critical)
      else if (size id =? 0) || negb (bool_decide (is_Some (data id)))
      then (GNUTLS_E_REQUESTED_DATA_NOT_AVAILABLE, c2, critical)
      else
        let '(ret, c2) := asn1_create_element "PKIX1.AuthorityKeyIdentifier" in
        if negb (ret =? ASN1_SUCCESS) then (_gnutls_asn2err ret, c2, critical)
        else
          let '(ret, c2) := asn1_der_decoding c2 (datum_bytes id) in
          if negb (ret =? ASN1_SUCCESS)
          then (_gnutls_asn2err ret, ASN1_TYPE_EMPTY, critical)
          else (0, c2, critical)
  end.

(** Outputs: the return value, [id], [*id_size] and [*critical]. *)
Definition gnutls_x509_crl_get_authority_key_id (c : gnutls_x509_crl_t)
    (id : option bytes) (id_size : Z) (critical : option Z)
    : Z * option bytes * Z * option Z :=
  let '(ret, c2, critical) := _get_authority_key_id c critical in
  if ret <? 0 then (ret, id, id_size, critical)
  else
    let '(result, id', len1) :=
      asn1_read_value c2 name_keyIdentifier id (s32 id_size) in
    let id_size' := u64 len1 in
    if (result =? ASN1_VALUE_NOT_FOUND) || (result =? ASN1_ELEMENT_NOT_FOUND)
    then (GNUTLS_E_X509_UNSUPPORTED_EXTENSION, id', id_size', critical)
    else if negb (result =? ASN1_SUCCESS)
    then (_gnutls_asn2err result, id', id_size', critical)
    else (0, id', id_size', critical).

(** Outputs: the return value, [alt], [*alt_size], [*alt_type], [serial],
    [*serial_size] and [*critical].  [alt_type] is the value behind the
    pointer on entry. *)
Definition gnutls_x509_crl_get_authority_key_gn_serial (c : gnutls_x509_crl_t)
    (seq : Z) (alt : option bytes) (alt_size : Z) (alt_type : Z)
    (serial : option bytes) (serial_size : Z) (critical : option Z)
    : Z * option bytes * Z * Z * option bytes * Z * option Z :=
  let '(ret, c2, critical) := _get_authority_key_id c critical in
  if ret <? 0 then (ret, alt, alt_size, alt_type, serial, serial_size, critical)
  else
    let '(ret, alt', alt_size', alt_type') :=
      _gnutls_parse_general_name c2 seq alt alt_size in
    if ret <? 0
    then (ret, alt', alt_size', alt_type', serial, serial_size, critical)
    else
      match serial with
      | Some _ =>
          let '(result, serial', len1) :=
            asn1_read_value c2 name_authorityCertSerialNumber serial (s32 serial_size) in
          let serial_size' := u64 len1 in
          if result <? 0
          then (_gnutls_asn2err result, alt', alt_size', alt_type',
                serial', serial_size', critical)
          else (0, alt', alt_size', alt_type', serial', serial_size', critical)
      | None => (0, alt', alt_size', alt_type', serial, serial_size, critical)
      end.

(** Modelled from the spec: [_gnutls_x509_ext_extract_number] of
    extensions.c (section 4.3, CRL Number): the raw extension value is
    decoded as an INTEGER whose big-endian octets are copied out under the
    size-negotiation contract.  Outputs: the return value, [number] and
    [*nr_size]. *)
Definition _gnutls_x509_ext_extract_number (number : option bytes) (nr_size : Z)
    (extnValue : bytes) : Z * option bytes * Z :=
  let '(result, ext) := asn1_create_element "PKIX1.CertificateSerialNumber" in
  if negb (result =? ASN1_SUCCESS) then (_gnutls_asn2err result, number, nr_size)
  else
    let '(result, ext) := asn1_der_decoding ext extnValue in
    if negb (result =? ASN1_SUCCESS) then (_gnutls_asn2err result, number, nr_size)
    else
      let '(result, number', len1) :=
        asn1_read_value ext name_root number (s32 nr_size) in
      (if negb (result =? ASN1_SUCCESS) then _gnutls_asn2err result else 0,
       number', u64 len1).

(** [memset (ret, 0, *ret_size)]: the first [n] bytes of the buffer. *)
Definition memset0 (buf : bytes) (n : Z) : bytes :=
  replicate (Z.to_nat n `min` length buf) 0 ++ drop (Z.to_nat n) buf.

(** Outputs: the return value, [ret], [*ret_size] and [*critical]. *)
Definition gnutls_x509_crl_get_number (c : gnutls_x509_crl_t)
    (ret : option bytes) (ret_size : Z) (critical : option Z)
    : Z * option bytes * Z * option Z :=
  match c with
  | None => (GNUTLS_E_INVALID_REQUEST, ret, ret_size, critical)
  | Some c =>
      let ret := (fun b => memset0 b ret_size) <$> ret in
      let ret_size := match ret with Some _ => ret_size | None => 0 end in
      let '(result, id, critical) :=
        _gnutls_x509_crl_get_extension c OID_CRL_NUMBER 0 critical in
      if result <? 0 then (result, ret, ret_size, critical)
      else if (size id =? 0) || negb (bool_decide (is_Some (data id)))
      then (GNUTLS_E_REQUESTED_DATA_NOT_AVAILABLE, ret, ret_size, critical)
      else
        let '(result, ret', ret_size') :=
          _gnutls_x509_ext_extract_number ret ret_size (datum_bytes id) in
        if result <? 0 then (result, ret', ret_size', critical)
        else (0, ret', ret_size', critical)
  end.

End Decoders.

(** ** Memory *)

(** An address: 0 is NULL, [S i] is the [i]-th object ever allocated. *)
Definition addr := nat.

Inductive cell :=
| Live (o : gnutls_x509_crl_int)
| Freed.

(** One entry into [gnutls_x509_crl_list_import]: the number of slots of
    the array, the capacity and the flags it was called with. *)
Record import_call := { call_slots : nat; call_crl_max : Z; call_flags : Z }.

(** The memory the importer works on.
    - [cells]: the CRL objects, by address.
    - [requests]: the allocation requests made so far.
    - [faults]: accesses to memory that is not live (a [free] or a
      dereference of a freed or wild address).
    - [trace]: the entries into the fixed-capacity importer, oldest first;
      ghost state that no operation reads. *)
Record world := {
  cells : list cell;
  requests : nat;
  faults : nat;
  trace : list import_call
}.

Definition empty_world : world :=
  {| cells := []; requests := 0; faults := 0; trace := [] |}.

Definition set_cells (w : world) (cs : list cell) : world :=
  {| cells := cs; requests := requests w; faults := faults w; trace := trace w |}.

Definition fault (w : world) : world :=
  {| cells := cells w; requests := requests w; faults := S (faults w);
     trace := trace w |}.

Definition requested (w : world) : world :=
  {| cells := cells w; requests := S (requests w); faults := faults w;
     trace := trace w |}.

Definition traced (c : import_call) (w : world) : world :=
  {| cells := cells w; requests := requests w; faults := faults w;
     trace := trace w ++ [c] |}.

Definition deref (w : world) (p : addr) : option gnutls_x509_crl_int :=
  match p with
  | O => None
  | S i => match cells w !! i with
           | Some (Live o) => Some o
           | _ => None
           end
  end.

(** The addresses of the objects that are live. *)
Fixpoint live_from (i : nat) (cs : list cell) : list addr :=
  match cs with
  | [] => []
  | Live _ :: cs => S i :: live_from (S i) cs
  | Freed :: cs => live_from (S i) cs
  end.

Definition live_handles (w : world) : list addr := live_from 0 (cells w).

(** ** Constants of the importer *)

(** Modelled from the spec: the PEM header token of section 6 ([PEM_CRL]
    of x509_int.h, not among the sources). *)
Definition PEM_CRL : bytes := bytes_of_string "X509 CRL".

(** Modelled from the spec: the CRL boundary marker of section 4.4
    ([PEM_CRL_SEP] of x509_int.h, not among the sources): the opening of the
    PEM header line for [PEM_CRL]. *)
Definition PEM_CRL_SEP : bytes := bytes_of_string "-----BEGIN X509 CRL".

(** Modelled from the spec: the strict flag of section 4.4
    ([gnutls_certificate_import_flags] of gnutls/x509.h, not among the
    sources). *)
Definition GNUTLS_X509_CRT_LIST_IMPORT_FAIL_IF_EXCEED : Z := 1.

Inductive gnutls_x509_crt_fmt_t :=
| GNUTLS_X509_FMT_DER
| GNUTLS_X509_FMT_PEM.

(** ** memmem *)

Fixpoint starts_with (needle hay : bytes) : bool :=
  match needle, hay with
  | [], _ => true
  | n :: needle, h :: hay => (n =? h) && starts_with needle hay
  | _ :: _, [] => false
  end.

(** [memmem (hay, |hay|, needle, |needle|)]: the offset of the first
    occurrence, [None] for the NULL result. *)
Fixpoint memmem (hay needle : bytes) : option nat :=
  if starts_with needle hay then Some O
  else match hay with
       | [] => None
       | _ :: hay => S <$> memmem hay needle
       end.

Section Importer.
Context `{Collaborators}.

Definition gnutls_calloc (w : world) : addr * world :=
  if alloc_fails (requests w) then (O, requested w)
  else (S (length (cells w)),
        requested (set_cells w (cells w ++ [Live {| crl := ASN1_TYPE_EMPTY |}]))).

Definition gnutls_free (p : addr) (w : world) : world :=
  match p with
  | O => w
  | S i => match cells w !! i with
           | Some (Live _) => set_cells w (<[i := Freed]> (cells w))
           | _ => fault w
           end
  end.

(** Outputs: the return value and [*crl].  When [asn1_create_element]
    fails the object is freed and [*crl] keeps its address. *)
Definition gnutls_x509_crl_init (w : world) : Z * addr * world :=
  let '(p, w) := gnutls_calloc w in
  match p with
  | O => (GNUTLS_E_MEMORY_ERROR, p, w)
  | S i =>
      let '(result, t) := asn1_create_element "PKIX1.CertificateList" in
      if negb (result =? ASN1_SUCCESS)
      then (_gnutls_asn2err result, p, gnutls_free p w)
      else (0, p, set_cells w (<[i := Live {| crl := t |}]> (cells w)))
  end.

(** The tree goes with the object. *)
Definition gnutls_x509_crl_deinit (p : addr) (w : world) : world :=
  match p with
  | O => w
  | S _ => gnutls_free p w
  end.

(** [asn1_der_decoding (&crl->crl, ...)] on the object at [p]. *)
Definition decode_into (p : addr) (der : bytes) (w : world) : Z * world :=
  match p with
  | O => (ASN1_ELEMENT_NOT_FOUND, fault w)
  | S i =>
      match cells w !! i with
      | Some (Live o) =>
          let '(result, t) := asn1_der_decoding (crl o) der in
          (result, set_cells w (<[i := Live {| crl := t |}]> (cells w)))
      | _ => (ASN1_ELEMENT_NOT_FOUND, fault w)
      end
  end.

(** [dat] holds the [data->size] bytes at [data->data]. *)
Definition gnutls_x509_crl_import (p : addr) (dat : bytes)
    (format : gnutls_x509_crt_fmt_t) (w : world) : Z * world :=
  match p with
  | O => (GNUTLS_E_INVALID_REQUEST, w)
  | S _ =>
      let decoded :=
        match format with
        | GNUTLS_X509_FMT_PEM =>
            let '(result, _data) := _gnutls_fbase64_decode PEM_CRL dat in
            if result <? 0 then inl result else inr _data
        | GNUTLS_X509_FMT_DER => inr dat
        end in
      match decoded with
      | inl result => (result, w)
      | inr _data =>
          let '(result, w) := decode_into p _data w in
          if negb (result =? ASN1_SUCCESS) then (_gnutls_asn2err result, w)
          else (0, w)
      end
  end.

(** ** The bulk list importer *)

(** What a call leaves behind: the return value, the caller's array, the
    capacity behind [crl_max] and the memory. *)
Record import_result := {
  ret : Z;
  crls_out : list addr;
  crl_max_out : Z;
  world_out : world
}.

(** [for (j = 0; j < count; j++) gnutls_x509_crl_deinit (crls[j]);]
    started at [j] with [n] rounds to go. *)
Fixpoint deinit_loop (j n : nat) (crls : list addr) (w : world) : world :=
  match n with
  | O => w
  | S n => deinit_loop (S j) n crls (gnutls_x509_crl_deinit (default O (crls !! j)) w)
  end.

(** The [error:] label. *)
Definition import_error (r : Z) (count : Z) (crls : list addr) (crl_max : Z)
    (w : world) : import_result :=
  {| ret := r; crls_out := crls; crl_max_out := crl_max;
     world_out := deinit_loop 0 (Z.to_nat count) crls w |}.

(** The statements after the loop. *)
Definition import_finish (count : Z) (nocopy : bool) (crls : list addr)
    (w : world) : import_result :=
  {| ret := if nocopy then GNUTLS_E_SHORT_MEMORY_BUFFER else s32 count;
     crls_out := crls; crl_max_out := count; world_out := w |}.

(** A pointer into the caller's buffer: its distance from [data->data]
    and the bytes from it to the end of the buffer. *)
Record cursor := { offset : Z; ahead : bytes }.

(** [ptr + k]. *)
Definition advance (ptr : cursor) (k : nat) : cursor :=
  {| offset := offset ptr + Z.of_nat k; ahead := drop k (ahead ptr) |}.

(** [ptr++], then the search for the next marker in what is left of the
    buffer; [dsize] is [data->size]. *)
Definition scan_next (dsize : Z) (ptr : cursor) : option cursor :=
  let ptr := advance ptr 1 in
  let size := s32 (dsize - offset ptr) in
  if 0 <? size
  then advance ptr <$> memmem (take (Z.to_nat size) (ahead ptr)) PEM_CRL_SEP
  else None.

Definition strict (flags : Z) : bool :=
  negb (Z.land flags GNUTLS_X509_CRT_LIST_IMPORT_FAIL_IF_EXCEED =? 0).

(** One round of the body of the [do ... while] up to the import: [inl] is
    [goto error], [inr] the array and the memory to go on with. *)
Definition import_one (dsize : Z) (ptr : cursor) (count : Z) (nocopy : bool)
    (crls : list addr) (w : world) : Z * list addr * world + list addr * world :=
  if nocopy then inr (crls, w)
  else
    let '(r, p, w) := gnutls_x509_crl_init w in
    let crls := <[Z.to_nat count := p]> crls in
    if r <? 0 then inl (r, crls, w)
    else
      let tmp := take (Z.to_nat (u32 (dsize - offset ptr))) (ahead ptr) in
      let '(r, w) := gnutls_x509_crl_import p tmp GNUTLS_X509_FMT_PEM w in
      if r <? 0 then inl (r, crls, w) else inr (crls, w).

(** The [do ... while (ptr != NULL)] loop; [None] when [fuel] rounds do not
    reach its end. *)
Fixpoint import_loop (fuel : nat) (dsize flags crl_max : Z) (ptr : cursor)
    (count : Z) (nocopy : bool) (crls : list addr) (w : world)
    : option import_result :=
  match fuel with
  | O => None
  | S fuel =>
      let exceeded := crl_max <=? count in
      if exceeded && negb (strict flags)
      then Some (import_finish count nocopy crls w)
      else
        let nocopy := nocopy || exceeded in
        match import_one dsize ptr count nocopy crls w with
        | inl (r, crls, w) => Some (import_error r count crls crl_max w)
        | inr (crls, w) =>
            let count := u32 (count + 1) in
            match scan_next dsize ptr with
            | Some ptr => import_loop fuel dsize flags crl_max ptr count nocopy crls w
            | None => Some (import_finish count nocopy crls w)
            end
        end
  end.

(** [crls] is the caller's array, [crl_max] the value behind the pointer on
    entry, [dat] the [data->size] bytes at [data->data].  Every round of the
    loop moves the pointer on by at least one byte, so the length of the
    buffer and one are rounds enough. *)
Definition gnutls_x509_crl_list_import (crls : list addr) (crl_max : Z)
    (dat : bytes) (format : gnutls_x509_crt_fmt_t) (flags : Z) (w : world)
    : option import_result :=
  let w := traced {| call_slots := length crls; call_crl_max := crl_max;
                     call_flags := flags |} w in
  match format with
  | GNUTLS_X509_FMT_DER =>
      if crl_max <? 1
      then Some {| ret := GNUTLS_E_SHORT_MEMORY_BUFFER; crls_out := crls;
                   crl_max_out := 1; world_out := w |}
      else
        let count := 1 in
        let '(r, p, w) := gnutls_x509_crl_init w in
        let crls := <[O := p]> crls in
        if r <? 0 then Some (import_error r count crls crl_max w)
        else
          let '(r, w) := gnutls_x509_crl_import p dat format w in
          if r <? 0 then Some (import_error r count crls crl_max w)
          else Some {| ret := 1; crls_out := crls; crl_max_out := 1; world_out := w |}
  | GNUTLS_X509_FMT_PEM =>
      match memmem dat PEM_CRL_SEP with
      | None => Some {| ret := GNUTLS_E_BASE64_DECODING_ERROR; crls_out := crls;
                        crl_max_out := crl_max; world_out := w |}
      | Some k =>
          let ptr := {| offset := Z.of_nat k; ahead := drop k dat |} in
          import_loop (S (length dat)) (u32 (len dat)) flags crl_max ptr 0 false crls w
      end
  end.

(** ** The auto-growing importer *)

(** [gnutls_malloc] of an array of [n] handles; its content is
    indeterminate and shown as NULLs. *)
Definition gnutls_malloc_array (n : Z) (w : world) : option (list addr) * world :=
  if alloc_fails (requests w) then (None, requested w)
  else (Some (replicate (Z.to_nat n) O), requested w).

(** [gnutls_realloc_fast] to [n] handles: the old content is kept as far
    as it fits; on failure the old array is released and NULL returned. *)
Definition gnutls_realloc_fast_array (old : list addr) (n : Z) (w : world)
    : option (list addr) * world :=
  if alloc_fails (requests w) then (None, requested w)
  else (Some (take (Z.to_nat n) (old ++ replicate (Z.to_nat n) O)), requested w).

(** Outputs: the return value, [*crls] (NULL or the array), [*size]. *)
Record import2_result := {
  ret2 : Z;
  crls2 : option (list addr);
  size2 : Z;
  world2 : world
}.

Definition gnutls_x509_crl_list_import2 (size : Z) (dat : bytes)
    (format : gnutls_x509_crt_fmt_t) (flags : Z) (w : world)
    : option import2_result :=
  let init := 1024 in
  let '(crls, w) := gnutls_malloc_array init w in
  match crls with
  | None => Some {| ret2 := GNUTLS_E_MEMORY_ERROR; crls2 := None; size2 := size;
                    world2 := w |}
  | Some crls =>
      match gnutls_x509_crl_list_import crls init dat format
              GNUTLS_X509_CRT_LIST_IMPORT_FAIL_IF_EXCEED w with
      | None => None
      | Some r =>
          let finish (r : import_result) :=
            if ret r <? 0
            then {| ret2 := ret r; crls2 := None; size2 := size;
                    world2 := world_out r |}
            else {| ret2 := 0; crls2 := Some (crls_out r);
                    size2 := crl_max_out r; world2 := world_out r |} in
          if ret r =? GNUTLS_E_SHORT_MEMORY_BUFFER
          then
            let init := crl_max_out r in
            let '(crls, w) := gnutls_realloc_fast_array (crls_out r) init (world_out r) in
            match crls with
            | None => Some {| ret2 := GNUTLS_E_MEMORY_ERROR; crls2 := None;
                              size2 := size; world2 := w |}
            | Some crls =>
                finish <$> gnutls_x509_crl_list_import crls init dat format flags w
            end
          else Some (finish r)
      end
  end.

End Importer.

(** ** Well-formed structures *)


(** The extensions of a CRL, none when the OPTIONAL field is left out. *)
Definition extensions (cl : CertificateList) : list Extension :=
  default [] (tbsCertList_crlExtensions cl).

(** The length of the signature in bits. *)
Definition signature_bits (cl : CertificateList) : Z :=
  8 * len (signature_octets cl) - signature_unused_bits cl.

(** A BIT STRING as DER carries it: at most 7 unused bits, none without
    octets, and a length an [int] can hold. *)
Definition wf_signature (cl : CertificateList) : Prop :=
  0 <= signature_unused_bits cl < 8 /\
  0 <= signature_bits cl /\
  len (signature_octets cl) < 2 ^ 28.





(** ** A small instance of the collaborators

    Used to run the code on concrete buffers.  The allocator never fails.
    A PEM block is the header line followed by its body up to the next
    dash; an empty body does not decode.  A CertificateList is the octet
    0x30 followed by the signature octets; an AuthorityKeyIdentifier is
    the tag 0x80 followed by the key identifier or the tag 0xA1 followed
    by one issuer name; an INTEGER is the tag 0x02 followed by its
    content. *)

Fixpoint until_dash (b : bytes) : bytes :=
  match b with
  | [] => []
  | x :: b => if x =? 45 then [] else x :: until_dash b
  end.

Definition sample_fbase64_decode (header dat : bytes) : Z * bytes :=
  let line := bytes_of_string "-----BEGIN " ++ header ++ bytes_of_string "-----" in
  if starts_with line dat
  then
    let body := until_dash (drop (length line) dat) in
    match body with
    | [] => (GNUTLS_E_BASE64_DECODING_ERROR, [])
    | _ => (len body, body)
    end
  else (GNUTLS_E_BASE64_DECODING_ERROR, []).

Definition sample_der_decoding (e : ASN1_TYPE) (der : bytes) : Z * ASN1_TYPE :=
  match e, der with
  | ASN1_created "PKIX1.CertificateList", 48 :: rest =>
      (ASN1_SUCCESS,
       ASN1_CertificateList
         {| tbsCertList_version := Some [1];
            tbsCertList_revokedCertificates := None;
            tbsCertList_crlExtensions := None;
            signature_octets := rest;
            signature_unused_bits := 0 |})
  | ASN1_created "PKIX1.AuthorityKeyIdentifier", 128 :: rest =>
      (ASN1_SUCCESS,
       ASN1_AuthorityKeyIdentifier
         {| keyIdentifier := Some rest; authorityCertIssuer := None;
            authorityCertSerialNumber := None |})
  | ASN1_created "PKIX1.AuthorityKeyIdentifier", 161 :: rest =>
      (ASN1_SUCCESS,
       ASN1_AuthorityKeyIdentifier
         {| keyIdentifier := None; authorityCertIssuer := Some [rest];
            authorityCertSerialNumber := Some [1] |})
  | ASN1_created "PKIX1.CertificateSerialNumber", 2 :: rest =>
      (ASN1_SUCCESS, ASN1_CertificateSerialNumber rest)
  | _, _ => (ASN1_DER_ERROR, ASN1_TYPE_EMPTY)
  end.

Definition sample_parse_general_name (c2 : ASN1_TYPE) (seq : Z)
    (alt : option bytes) (alt_size : Z) : Z * option bytes * Z * Z :=
  match c2 with
  | ASN1_AuthorityKeyIdentifier a =>
      match nth_child (authorityCertIssuer a) (seq + 1) with
      | Some name =>
          if alt_size <? len name then (GNUTLS_E_SHORT_MEMORY_BUFFER, alt, len name, 0)
          else (0, store alt name, len name, 0)
      | None => (GNUTLS_E_REQUESTED_DATA_NOT_AVAILABLE, alt, alt_size, 0)
      end
  | _ => (GNUTLS_E_REQUESTED_DATA_NOT_AVAILABLE, alt, alt_size, 0)
  end.

Definition sample_collaborators : Collaborators :=
  {| alloc_fails := fun _ => false;
     asn1_create_element := fun g => (ASN1_SUCCESS, ASN1_created g);
     asn1_der_decoding := sample_der_decoding;
     _gnutls_fbase64_decode := sample_fbase64_decode;
     _gnutls_parse_general_name := sample_parse_general_name |}.

(** A CRL with the given extensions and a two-octet signature. *)
Definition sample_crl (exts : option (list Extension)) : CertificateList :=
  {| tbsCertList_version := Some [1];
     tbsCertList_revokedCertificates := None;
     tbsCertList_crlExtensions := exts;
     signature_octets := [171; 205];
     signature_unused_bits := 0 |}.

Definition sample_handle (exts : option (list Extension)) : gnutls_x509_crl_t :=
  Some {| crl := ASN1_CertificateList (sample_crl exts) |}.

(** The same CRL with [u] unused bits in the last signature octet. *)
Definition sample_crl_unused (u : Z) : CertificateList :=
  {| tbsCertList_version := Some [1];
     tbsCertList_revokedCertificates := None;
     tbsCertList_crlExtensions := None;
     signature_octets := [171; 200];
     signature_unused_bits := u |}.

(** An Authority Key Identifier in the plain form, one in the
    GeneralName/serial form, one without value, and a CRL Number. *)
Definition aki_plain : Extension :=
  {| extnID := OID_AUTHORITY_KEY_ID; critical := false; extnValue := [128; 10; 11; 12] |}.
Definition aki_gn_serial : Extension :=
  {| extnID := OID_AUTHORITY_KEY_ID; critical := false; extnValue := [161; 67; 65] |}.
Definition aki_empty : Extension :=
  {| extnID := OID_AUTHORITY_KEY_ID; critical := false; extnValue := [] |}.
Definition crl_number : Extension :=
  {| extnID := OID_CRL_NUMBER; critical := false; extnValue := [2; 1; 44] |}.

(** A PEM block with body [body]. *)
Definition pem_block (body : string) : bytes :=
  PEM_CRL_SEP ++ bytes_of_string "-----" ++ bytes_of_string body
    ++ bytes_of_string "-----END X509 CRL-----".

(** Three blocks that decode; three blocks of which the second does not;
    [n] blocks that decode. *)
Definition pem_three : bytes :=
  pem_block "0ab" ++ pem_block "0cd" ++ pem_block "0ef".

Definition pem_second_malformed : bytes :=
  pem_block "0ab" ++ pem_block "xcd" ++ pem_block "0ef".

Definition pem_blocks (n : nat) : bytes := concat (replicate n (pem_block "0")).

(** What is looked at after a run of the auto-growing importer: the return
    value, [*size], the calls made, the number of live objects and the
    number of slots of the array handed back. *)
Definition import2_summary (r : option import2_result)
    : option (Z * Z * list import_call * nat * nat) :=
  (fun r => (ret2 r, size2 r, trace (world2 r), length (live_handles (world2 r)),
             length (default [] (crls2 r)))) <$> r.

(** ** The revoked certificates *)

(** [asn1_read_value] once the element is found: what it hands out of a
    node, under the same calling convention. *)
Definition asn1_deliver (node : option asn1_node) (value : option bytes)
    (vlen : Z) : Z * option bytes * Z :=
  match node with
  | None => (ASN1_ELEMENT_NOT_FOUND, value, vlen)
  | Some node_no_value => (ASN1_VALUE_NOT_FOUND, value, vlen)
  | Some (node_octets content) =>
      if vlen <? len content then (ASN1_MEM_ERROR, value, len content)
      else (ASN1_SUCCESS, store value content, len content)
  | Some (node_text text) =>
      if vlen <? len text + 1 then (ASN1_MEM_ERROR, value, len text + 1)
      else (ASN1_SUCCESS, store value (text ++ [0]), len text + 1)
  | Some (node_bits octets unused) =>
      if vlen <? len octets then (ASN1_MEM_ERROR, value, 8 * len octets - unused)
      else (ASN1_SUCCESS, store value octets, 8 * len octets - unused)
  end.

(** The entries of a CRL, none when the OPTIONAL field is left out. *)
Definition revoked (cl : CertificateList) : list RevokedCertificate :=
  default [] (tbsCertList_revokedCertificates cl).

(** The node under "tbsCertList.revokedCertificates.?%u.userCertificate",
    [k] being the value printed by [%u]. *)
Definition userCertificate_node (t : ASN1_TYPE) (k : Z) : option asn1_node :=
  match t with
  | ASN1_CertificateList c =>
      (fun e => node_octets (userCertificate e))
        <$> nth_child (tbsCertList_revokedCertificates c) k
  | _ => None
  end.

(** Modelled from the spec: [_gnutls_x509_get_time] of common.c on
    "tbsCertList.revokedCertificates.?%u.revocationDate": the calendar
    timestamp of the entry, the invalid time -1 when there is none. *)
Definition _gnutls_x509_get_time (t : ASN1_TYPE) (k : Z) : Z :=
  match t with
  | ASN1_CertificateList c =>
      match nth_child (tbsCertList_revokedCertificates c) k with
      | Some e => revocationDate e
      | None => -1
      end
  | _ => -1
  end.

(** Outputs: the return value, [serial], [*serial_size] and [*t]. *)
Definition gnutls_x509_crl_get_crt_serial (c : gnutls_x509_crl_t) (indx : Z)
    (serial : option bytes) (serial_size : Z) (t : option Z)
    : Z * option bytes * Z * option Z :=
  match c with
  | None => (GNUTLS_E_INVALID_REQUEST, serial, serial_size, t)
  | Some c =>
      let k := u32 (indx + 1) in
      let '(result, serial', _serial_size) :=
        asn1_deliver (userCertificate_node (crl c) k) serial (s32 serial_size) in
      let serial_size' := u64 _serial_size in
      if negb (result =? ASN1_SUCCESS)
      then
        if result =? ASN1_ELEMENT_NOT_FOUND
        then (GNUTLS_E_REQUESTED_DATA_NOT_AVAILABLE, serial', serial_size', t)
        else (_gnutls_asn2err result, serial', serial_size', t)
      else (0, serial', serial_size', store_uint t (_gnutls_x509_get_time (crl c) k))
  end.

(** ** Export and copy *)

(** The encoder crl.c calls and does not define:
    [_gnutls_x509_export_int2 tree format header] gives a negative error, or
    a non-negative result with the encoding. *)
Class Exporter := {
  _gnutls_x509_export_int2 : ASN1_TYPE -> gnutls_x509_crt_fmt_t -> bytes -> Z * bytes
}.

Section Copy.
Context `{Collaborators} `{Exporter}.

(** Outputs: the return value and the bytes of [out]. *)
Definition gnutls_x509_crl_export2 (c : gnutls_x509_crl_t)
    (format : gnutls_x509_crt_fmt_t) : Z * bytes :=
  match c with
  | None => (GNUTLS_E_INVALID_REQUEST, [])
  | Some c => _gnutls_x509_export_int2 (crl c) format PEM_CRL
  end.

(** [src] is NULL or points to a live object. *)
Definition _gnutls_x509_crl_cpy (dest src : addr) (w : world) : Z * world :=
  let '(r, tmp) := gnutls_x509_crl_export2 (deref w src) GNUTLS_X509_FMT_DER in
  if r <? 0 then (r, w)
  else
    let '(r, w) := gnutls_x509_crl_import dest tmp GNUTLS_X509_FMT_DER w in
    if r <? 0 then (r, w) else (0, w).

End Copy.

(** ** Which objects are live *)

Definition is_live (c : cell) : bool :=
  match c with
  | Live _ => true
  | Freed => false
  end.

(** For every address handed out so far, whether its object is live. *)
Definition alive (w : world) : list bool := is_live <$> cells w.

(** The first [made] slots of the array hold, in order, the addresses of the
    objects allocated after the first [n0]. *)
Definition slots_hold (crls : list addr) (n0 made : nat) : Prop :=
  forall i, (i < made)%nat -> crls !! i = Some (S (n0 + i)).

(** The array has the slots it had, and from slot [cm] on their content. *)
Definition beyond_same (crls crls0 : list addr) (cm : nat) : Prop :=
  length crls = length crls0 /\
  forall i, (cm <= i)%nat -> crls !! i = crls0 !! i.

(** The three ways a PEM call on memory [w0] ends.
    - Committed: it returns the count, which is within the capacity; the
      objects it allocated are all live and sit in the first slots.
    - Aborted: under the strict flag the capacity was exceeded; the objects
      it allocated, as many as the capacity, are all live.
    - Failed: it returns an error and leaves the capacity; of the objects
      it allocated all but the last are freed; [tail] is the last one, if
      there is one, live or freed. *)
Inductive import_outcome (w0 : world) (flags crl_max : Z) (r : import_result) : Prop :=
| import_committed :
    ret r = s32 (crl_max_out r) ->
    0 <= crl_max_out r <= crl_max ->
    alive (world_out r) = alive w0 ++ replicate (Z.to_nat (crl_max_out r)) true ->
    slots_hold (crls_out r) (length (cells w0)) (Z.to_nat (crl_max_out r)) ->
    import_outcome w0 flags crl_max r
| import_aborted :
    strict flags = true ->
    ret r = GNUTLS_E_SHORT_MEMORY_BUFFER ->
    alive (world_out r) = alive w0 ++ replicate (Z.to_nat crl_max) true ->
    slots_hold (crls_out r) (length (cells w0)) (Z.to_nat crl_max) ->
    import_outcome w0 flags crl_max r
| import_failed (c : nat) (tail : list bool) :
    ret r < 0 ->
    crl_max_out r = crl_max ->
    (c + length tail <= Z.to_nat crl_max)%nat ->
    alive (world_out r) = alive w0 ++ replicate c false ++ tail ->
    tail = [] \/ tail = [false] \/ tail = [true] ->
    import_outcome w0 flags crl_max r.

(** A collaborator instance whose [asn1_create_element] fails. *)
Definition failing_create_collaborators : Collaborators :=
  {| alloc_fails := fun _ => false;
     asn1_create_element := fun _ => (ASN1_ELEMENT_NOT_FOUND, ASN1_TYPE_EMPTY);
     asn1_der_decoding := sample_der_decoding;
     _gnutls_fbase64_decode := sample_fbase64_decode;
     _gnutls_parse_general_name := sample_parse_general_name |}.

(** The encoder that goes with [sample_der_decoding]. *)
Definition sample_exporter : Exporter :=
  {| _gnutls_x509_export_int2 := fun t _ _ =>
       match t with
       | ASN1_CertificateList c =>
           (0, 48 :: signature_octets c)
       | _ => (GNUTLS_E_ASN1_GENERIC_ERROR, [])
       end |}.

(** A CRL with two revoked certificates. *)
Definition sample_crl_revoked : CertificateList :=
  {| tbsCertList_version := Some [1];
     tbsCertList_revokedCertificates :=
       Some [{| userCertificate := [1; 2; 3]; revocationDate := 1000 |};
             {| userCertificate := [4]; revocationDate := 2000 |}];
     tbsCertList_crlExtensions := None;
     signature_octets := [171; 205];
     signature_unused_bits := 0 |}.

(** * Properties *)

(** ** Basic facts *)

(** Closed goals over concrete numbers and buffers. *)
Ltac closed :=
  vm_compute; repeat split;
  first [reflexivity | discriminate | (intro; discriminate)].

Lemma u32_small x : 0 <= x < 2 ^ 32 -> u32 x = x.
Proof. intros H. unfold u32. apply Z.mod_small. exact H. Qed.

Lemma u64_small x : 0 <= x < 2 ^ 64 -> u64 x = x.
Proof. intros H. unfold u64. apply Z.mod_small. exact H. Qed.

Lemma s32_small x : - 2 ^ 31 <= x < 2 ^ 31 -> s32 x = x.
Proof. intros H. unfold s32. rewrite Z.mod_small; lia. Qed.


Lemma len_nonneg (b : bytes) : 0 <= len b.
Proof. unfold len. lia. Qed.

Lemma _gnutls_asn2err_neg e : _gnutls_asn2err e < 0.
Proof.
  unfold _gnutls_asn2err.
  repeat match goal with |- context [if ?b then _ else _] => destruct b end;
    reflexivity.
Qed.



(** ** Scalar accessors *)

(** C9. On a valid handle [gnutls_x509_crl_get_crt_count] returns 0 when
    the revokedCertificates sequence is absent (and so also when it is
    present without entries) and the number of its entries when it is
    present; it never returns an error. *)
Theorem get_crt_count_absent_or_counted (cl : CertificateList) :
  gnutls_x509_crl_get_crt_count (Some {| crl := ASN1_CertificateList cl |})
  = match tbsCertList_revokedCertificates cl with
    | None => 0
    | Some entries => Z.of_nat (length entries)
    end.
Proof.
  unfold gnutls_x509_crl_get_crt_count, asn1_number_of_elements. simpl.
  destruct (tbsCertList_revokedCertificates cl); reflexivity.
Qed.




(** What the code does with any version field: the first content octet
    plus one when the content fits the eight-byte local array, and the
    adapter's error when the OPTIONAL field is left out. *)
Lemma get_version_first_octet (cl : CertificateList) (b : Z) (rest version : bytes) :
  tbsCertList_version cl = Some (b :: rest) ->
  len (b :: rest) <= 8 ->
  gnutls_x509_crl_get_version (Some {| crl := ASN1_CertificateList cl |}) version
  = u8 b + 1.
Proof.
  intros Hver Hlen.
  unfold gnutls_x509_crl_get_version, asn1_read_value. simpl. rewrite Hver. simpl.
  destruct (8 <? len (b :: rest)) eqn:E; [apply Z.ltb_lt in E; lia|].
  reflexivity.
Qed.

Lemma get_version_absent (cl : CertificateList) (version : bytes) :
  tbsCertList_version cl = None ->
  gnutls_x509_crl_get_version (Some {| crl := ASN1_CertificateList cl |}) version
  = GNUTLS_E_ASN1_ELEMENT_NOT_FOUND.
Proof.
  intros Hver.
  unfold gnutls_x509_crl_get_version, asn1_read_value. simpl. rewrite Hver.
  reflexivity.
Qed.


(** A size below the length of the signature is answered with the length
    and nothing else. *)
Lemma get_signature_too_small (cl : CertificateList) (sig : option bytes)
    (sizeof_sig : Z) :
  wf_signature cl ->
  signature_bits cl mod 8 = 0 ->
  0 <= sizeof_sig < signature_bits cl / 8 ->
  gnutls_x509_crl_get_signature (Some {| crl := ASN1_CertificateList cl |})
    sig sizeof_sig
  = (GNUTLS_E_SHORT_MEMORY_BUFFER, sig, signature_bits cl / 8).
Proof.
  intros (Hun & Hbits & Hlen) Hmod Hsmall. unfold signature_bits in *.
  pose proof (len_nonneg (signature_octets cl)) as Hl.
  assert (Hu : u32 (8 * len (signature_octets cl) - signature_unused_bits cl)
               = 8 * len (signature_octets cl) - signature_unused_bits cl)
    by (apply u32_small; lia).
  set (bits := 8 * len (signature_octets cl) - signature_unused_bits cl) in *.
  assert (0 <= bits / 8) by (apply Z.div_pos; lia).
  assert (bits / 8 <= len (signature_octets cl))
    by (apply Z.div_le_upper_bound; lia).
  assert (0 < len (signature_octets cl)) by lia.
  unfold gnutls_x509_crl_get_signature, asn1_read_value. simpl.
  destruct (0 <? len (signature_octets cl)) eqn:E; [|apply Z.ltb_ge in E; lia].
  simpl. fold bits. rewrite Hu.
  destruct (bits mod 8 =? 0) eqn:E8; [|apply Z.eqb_neq in E8; contradiction].
  simpl. rewrite s32_small by lia. rewrite u32_small by lia.
  destruct (sizeof_sig <? bits / 8) eqn:Es; [|apply Z.ltb_ge in Es; lia].
  reflexivity.
Qed.

(** C5. On a valid handle whose signature has a bit length that is not a
    multiple of 8, [gnutls_x509_crl_get_signature] fails with
    GNUTLS_E_CERTIFICATE_ERROR whatever the caller's buffer, and changes
    neither the buffer nor the size; when the bit length is a multiple of
    8 and the caller's size is too small, the size reported back is
    exactly bits / 8. *)
Theorem get_signature_whole_octets (cl : CertificateList) (sig : option bytes)
    (sizeof_sig : Z) :
  wf_signature cl ->
  (signature_bits cl mod 8 <> 0 ->
   gnutls_x509_crl_get_signature (Some {| crl := ASN1_CertificateList cl |})
     sig sizeof_sig
   = (GNUTLS_E_CERTIFICATE_ERROR, sig, sizeof_sig)) /\
  (signature_bits cl mod 8 = 0 ->
   0 <= sizeof_sig < signature_bits cl / 8 ->
   gnutls_x509_crl_get_signature (Some {| crl := ASN1_CertificateList cl |})
     sig sizeof_sig
   = (GNUTLS_E_SHORT_MEMORY_BUFFER, sig, signature_bits cl / 8)).
Proof.
  intros Hwf. pose proof Hwf as (Hun & Hbits & Hlen).
  unfold signature_bits in Hbits |- *.
  pose proof (len_nonneg (signature_octets cl)) as Hl.
  assert (Hu : u32 (8 * len (signature_octets cl) - signature_unused_bits cl)
               = 8 * len (signature_octets cl) - signature_unused_bits cl)
    by (apply u32_small; lia).
  split.
  - intros Hmod.
    assert (0 < len (signature_octets cl)).
    { destruct (Z.eq_dec (len (signature_octets cl)) 0) as [E|]; [|lia].
      exfalso. apply Hmod. rewrite E.
      replace (signature_unused_bits cl) with 0 by lia. reflexivity. }
    unfold gnutls_x509_crl_get_signature, asn1_read_value. simpl.
    destruct (0 <? len (signature_octets cl)) eqn:E; [|apply Z.ltb_ge in E; lia].
    simpl. rewrite Hu.
    destruct (_ mod 8 =? 0) eqn:E8; [apply Z.eqb_eq in E8; contradiction|].
    reflexivity.
  - intros Hmod Hsmall.
    apply get_signature_too_small; [exact Hwf | exact Hmod | exact Hsmall].
Qed.

Lemma get_signature_whole_octets_witness :
  gnutls_x509_crl_get_signature
    (Some {| crl := ASN1_CertificateList (sample_crl_unused 3) |}) (Some [9; 9]) 2
  = (GNUTLS_E_CERTIFICATE_ERROR, Some [9; 9], 2)
  /\ gnutls_x509_crl_get_signature
       (Some {| crl := ASN1_CertificateList (sample_crl_unused 0) |}) (Some [9]) 1
     = (GNUTLS_E_SHORT_MEMORY_BUFFER, Some [9], 2).
Proof.
  split.
  - apply (get_signature_whole_octets (sample_crl_unused 3) (Some [9; 9]) 2).
    + closed.
    + closed.
  - apply (get_signature_whole_octets (sample_crl_unused 0) (Some [9]) 1).
    + closed.
    + closed.
    + closed.
Defined.

(** ** Enumerating the extensions *)

Lemma nth_child_extensions (cl : CertificateList) (n : Z) :
  nth_child (tbsCertList_crlExtensions cl) n
  = if 1 <=? n then extensions cl !! Z.to_nat (n - 1) else None.
Proof.
  unfold nth_child, extensions.
  destruct (tbsCertList_crlExtensions cl); simpl; [reflexivity|].
  destruct (1 <=? n); reflexivity.
Qed.

Lemma nth_child_index (cl : CertificateList) (indx : Z) :
  0 <= indx <= INT_MAX ->
  nth_child (tbsCertList_crlExtensions cl) (u32 (indx + 1))
  = extensions cl !! Z.to_nat indx.
Proof.
  intros Hi. unfold INT_MAX in Hi. rewrite nth_child_extensions.
  rewrite u32_small by lia.
  destruct (1 <=? indx + 1) eqn:E; [|apply Z.leb_gt in E; lia].
  f_equal. lia.
Qed.

(** C4. On a valid handle with [k] extensions, the index-addressed
    accessors [gnutls_x509_crl_get_extension_info] and
    [gnutls_x509_crl_get_extension_data], called with buffers that hold the
    answer, succeed at every index 0..k-1 and deliver the OID, the critical
    flag and the value of that extension; at index [k] and at every index
    beyond it both return GNUTLS_E_REQUESTED_DATA_NOT_AVAILABLE whatever
    the buffers, and leave the buffers as they were. *)
Theorem extension_enumeration_terminates (cl : CertificateList) (indx : Z)
    (oid dat : option bytes) (sizeof_oid sizeof_data : Z) (crit : option Z)
    (str_critical : bytes) :
  let h := Some {| crl := ASN1_CertificateList cl |} in
  let k := Z.of_nat (length (extensions cl)) in
  indx <= INT_MAX ->
  (forall e,
     0 <= indx < k ->
     extensions cl !! Z.to_nat indx = Some e ->
     len (extnID e) + 1 <= sizeof_oid < 2 ^ 31 ->
     len (extnValue e) <= sizeof_data < 2 ^ 31 ->
     gnutls_x509_crl_get_extension_info h indx oid sizeof_oid crit str_critical
     = (0, store oid (extnID e ++ [0]), len (extnID e) + 1,
        store_uint crit (if critical e then 1 else 0))
     /\ gnutls_x509_crl_get_extension_data h indx dat sizeof_data
        = (0, store dat (extnValue e), len (extnValue e)))
  /\ (k <= indx ->
      (exists n,
         gnutls_x509_crl_get_extension_info h indx oid sizeof_oid crit str_critical
         = (GNUTLS_E_REQUESTED_DATA_NOT_AVAILABLE, oid, n, crit))
      /\ (exists n,
            gnutls_x509_crl_get_extension_data h indx dat sizeof_data
            = (GNUTLS_E_REQUESTED_DATA_NOT_AVAILABLE, dat, n))).
Proof.
  intros h k Hmax. subst h k. split.
  - intros e Hi He Hoid Hdat.
    pose proof (len_nonneg (extnID e)). pose proof (len_nonneg (extnValue e)).
    unfold gnutls_x509_crl_get_extension_info, gnutls_x509_crl_get_extension_data,
      asn1_read_value.
    simpl. rewrite !nth_child_index by lia. rewrite He. simpl.
    rewrite !s32_small by lia.
    destruct (sizeof_oid <? len (extnID e) + 1) eqn:E1; [apply Z.ltb_lt in E1; lia|].
    destruct (sizeof_data <? len (extnValue e)) eqn:E2; [apply Z.ltb_lt in E2; lia|].
    simpl. rewrite !u64_small by lia. split; [|reflexivity].
    destruct (critical e); reflexivity.
  - intros Hk.
    assert (Hnone : extensions cl !! Z.to_nat indx = None)
      by (apply lookup_ge_None; lia).
    unfold gnutls_x509_crl_get_extension_info, gnutls_x509_crl_get_extension_data,
      asn1_read_value.
    simpl. rewrite !nth_child_index by lia. rewrite Hnone. simpl.
    split; eexists; reflexivity.
Qed.

Lemma extension_enumeration_terminates_witness :
  (gnutls_x509_crl_get_extension_info (sample_handle (Some [aki_plain; crl_number])) 1
     (Some (replicate 12 7)) 12 (Some 5) (replicate 10 0)
   = (0, store (Some (replicate 12 7)) (extnID crl_number ++ [0]),
      len (extnID crl_number) + 1, Some 0)
   /\ gnutls_x509_crl_get_extension_data (sample_handle (Some [aki_plain; crl_number])) 1
        (Some (replicate 4 7)) 4
      = (0, store (Some (replicate 4 7)) (extnValue crl_number),
         len (extnValue crl_number)))
  /\ ((exists n,
         gnutls_x509_crl_get_extension_info (sample_handle (Some [aki_plain; crl_number])) 2
           (Some (replicate 12 7)) 12 (Some 5) (replicate 10 0)
         = (GNUTLS_E_REQUESTED_DATA_NOT_AVAILABLE, Some (replicate 12 7), n, Some 5))
      /\ (exists n,
            gnutls_x509_crl_get_extension_data (sample_handle (Some [aki_plain; crl_number])) 2
              (Some (replicate 4 7)) 4
            = (GNUTLS_E_REQUESTED_DATA_NOT_AVAILABLE, Some (replicate 4 7), n))).
Proof.
  split.
  - apply (extension_enumeration_terminates (sample_crl (Some [aki_plain; crl_number])) 1
             (Some (replicate 12 7)) (Some (replicate 4 7)) 12 4 (Some 5)
             (replicate 10 0)).
    + closed.
    + closed.
    + closed.
    + closed.
    + closed.
  - apply (extension_enumeration_terminates (sample_crl (Some [aki_plain; crl_number])) 2
             (Some (replicate 12 7)) (Some (replicate 4 7)) 12 4 (Some 5)
             (replicate 10 0)).
    + closed.
    + closed.
Defined.

(** ** The Authority Key Identifier *)

Section AuthorityKeyId.
Context `{Collaborators}.

(** The lookup of an absent extension, and of one without value, end in
    RequestedDataNotAvailable before any structure is built. *)
Lemma _get_authority_key_id_absent_or_empty (cl : CertificateList) (crit : option Z) :
  find_extension (extensions cl) OID_AUTHORITY_KEY_ID 0 = None \/
  (exists e, find_extension (extensions cl) OID_AUTHORITY_KEY_ID 0 = Some e /\
             extnValue e = []) ->
  exists crit',
    _get_authority_key_id (Some {| crl := ASN1_CertificateList cl |}) crit
    = (GNUTLS_E_REQUESTED_DATA_NOT_AVAILABLE, ASN1_TYPE_EMPTY, crit').
Proof.
  unfold _get_authority_key_id, _gnutls_x509_crl_get_extension. simpl.
  fold (extensions cl).
  intros [-> | (e & -> & Hv)]; simpl.
  - eexists; reflexivity.
  - rewrite Hv. simpl. eexists; reflexivity.
Qed.

Lemma _get_authority_key_id_decoded (cl : CertificateList) (crit : option Z)
    (e : Extension) (el : ASN1_TYPE) (a : AuthorityKeyIdentifier) :
  find_extension (extensions cl) OID_AUTHORITY_KEY_ID 0 = Some e ->
  0 < len (extnValue e) < 2 ^ 32 ->
  asn1_create_element "PKIX1.AuthorityKeyIdentifier" = (ASN1_SUCCESS, el) ->
  asn1_der_decoding el (extnValue e) = (ASN1_SUCCESS, ASN1_AuthorityKeyIdentifier a) ->
  _get_authority_key_id (Some {| crl := ASN1_CertificateList cl |}) crit
  = (0, ASN1_AuthorityKeyIdentifier a, store_uint crit (if critical e then 1 else 0)).
Proof.
  intros Hfind Hlen Hcreate Hdecode.
  unfold _get_authority_key_id, _gnutls_x509_crl_get_extension. simpl.
  fold (extensions cl). rewrite Hfind. simpl.
  rewrite u32_small by lia.
  destruct (len (extnValue e) =? 0) eqn:E; [apply Z.eqb_eq in E; lia|].
  simpl. rewrite Hcreate. simpl. unfold datum_bytes. simpl.
  rewrite Hdecode. reflexivity.
Qed.

(** C6. On a valid handle: when the Authority Key Identifier extension
    (2.5.29.35) is absent or has an empty value, both
    [gnutls_x509_crl_get_authority_key_id] and
    [gnutls_x509_crl_get_authority_key_gn_serial] return
    GNUTLS_E_REQUESTED_DATA_NOT_AVAILABLE; when it is present and decodes
    to a structure without keyIdentifier (the GeneralName/serial form),
    the plain accessor returns GNUTLS_E_X509_UNSUPPORTED_EXTENSION; when it
    decodes to a structure with a keyIdentifier, the plain accessor, given
    a buffer that holds it, succeeds and copies it out. *)
Theorem authority_key_id_forms (cl : CertificateList) (id : option bytes)
    (id_size : Z) (crit : option Z) (seq : Z) (alt : option bytes)
    (alt_size alt_type : Z) (serial : option bytes) (serial_size : Z) :
  let h := Some {| crl := ASN1_CertificateList cl |} in
  (find_extension (extensions cl) OID_AUTHORITY_KEY_ID 0 = None \/
   (exists e, find_extension (extensions cl) OID_AUTHORITY_KEY_ID 0 = Some e /\
              extnValue e = []) ->
   (exists crit',
      gnutls_x509_crl_get_authority_key_id h id id_size crit
      = (GNUTLS_E_REQUESTED_DATA_NOT_AVAILABLE, id, id_size, crit')) /\
   (exists crit',
      gnutls_x509_crl_get_authority_key_gn_serial h seq alt alt_size alt_type
        serial serial_size crit
      = (GNUTLS_E_REQUESTED_DATA_NOT_AVAILABLE, alt, alt_size, alt_type,
         serial, serial_size, crit')))
  /\ (forall e el a,
        find_extension (extensions cl) OID_AUTHORITY_KEY_ID 0 = Some e ->
        0 < len (extnValue e) < 2 ^ 32 ->
        asn1_create_element "PKIX1.AuthorityKeyIdentifier" = (ASN1_SUCCESS, el) ->
        asn1_der_decoding el (extnValue e)
        = (ASN1_SUCCESS, ASN1_AuthorityKeyIdentifier a) ->
        (keyIdentifier a = None ->
         exists n,
           gnutls_x509_crl_get_authority_key_id h id id_size crit
           = (GNUTLS_E_X509_UNSUPPORTED_EXTENSION, id, n,
              store_uint crit (if critical e then 1 else 0)))
        /\ (forall kid,
              keyIdentifier a = Some kid ->
              len kid <= id_size < 2 ^ 31 ->
              gnutls_x509_crl_get_authority_key_id h id id_size crit
              = (0, store id kid, len kid,
                 store_uint crit (if critical e then 1 else 0)))).
Proof.
  intros h. subst h. split.
  - intros Habs.
    destruct (_get_authority_key_id_absent_or_empty cl crit Habs) as [crit' Hget].
    unfold gnutls_x509_crl_get_authority_key_id,
      gnutls_x509_crl_get_authority_key_gn_serial.
    rewrite Hget. simpl. split; eexists; reflexivity.
  - intros e el a Hfind Hlen Hcreate Hdecode.
    pose proof (_get_authority_key_id_decoded cl crit e el a Hfind Hlen Hcreate Hdecode)
      as Hget.
    unfold gnutls_x509_crl_get_authority_key_id. rewrite Hget. simpl.
    unfold asn1_read_value. simpl. split.
    + intros ->. simpl. eexists; reflexivity.
    + intros kid -> Hsize. simpl. pose proof (len_nonneg kid).
      rewrite s32_small by lia.
      destruct (id_size <? len kid) eqn:E; [apply Z.ltb_lt in E; lia|].
      simpl. rewrite u64_small by lia. reflexivity.
Qed.

End AuthorityKeyId.

Lemma authority_key_id_forms_witness :
  (exists crit',
     gnutls_x509_crl_get_authority_key_id (H := sample_collaborators)
       (sample_handle None) (Some [7; 7; 7]) 3 (Some 5)
     = (GNUTLS_E_REQUESTED_DATA_NOT_AVAILABLE, Some [7; 7; 7], 3, crit'))
  /\ (exists crit',
        gnutls_x509_crl_get_authority_key_gn_serial (H := sample_collaborators)
          (sample_handle (Some [aki_empty])) 0 (Some [7; 7; 7]) 3 0 None 0 (Some 5)
        = (GNUTLS_E_REQUESTED_DATA_NOT_AVAILABLE, Some [7; 7; 7], 3, 0, None, 0, crit'))
  /\ (exists n,
        gnutls_x509_crl_get_authority_key_id (H := sample_collaborators)
          (sample_handle (Some [crl_number; aki_gn_serial])) (Some [7; 7; 7]) 3 (Some 5)
        = (GNUTLS_E_X509_UNSUPPORTED_EXTENSION, Some [7; 7; 7], n, Some 0))
  /\ gnutls_x509_crl_get_authority_key_id (H := sample_collaborators)
       (sample_handle (Some [crl_number; aki_plain])) (Some [7; 7; 7; 7]) 4 (Some 5)
     = (0, Some [10; 11; 12; 7], 3, Some 0).
Proof.
  split; [|split; [|split]].
  - apply (authority_key_id_forms (H := sample_collaborators) (sample_crl None)
             (Some [7; 7; 7]) 3 (Some 5) 0 None 0 0 None 0).
    left. reflexivity.
  - apply (authority_key_id_forms (H := sample_collaborators)
             (sample_crl (Some [aki_empty]))
             None 0 (Some 5) 0 (Some [7; 7; 7]) 3 0 None 0).
    right. exists aki_empty. split; reflexivity.
  - destruct (proj2 (authority_key_id_forms (H := sample_collaborators)
                       (sample_crl (Some [crl_number; aki_gn_serial]))
                       (Some [7; 7; 7]) 3 (Some 5) 0 None 0 0 None 0)
                aki_gn_serial (ASN1_created "PKIX1.AuthorityKeyIdentifier")
                {| keyIdentifier := None; authorityCertIssuer := Some [[67; 65]];
                   authorityCertSerialNumber := Some [1] |})
      as [Hgn _]; [closed | closed | closed | closed |].
    apply Hgn. reflexivity.
  - destruct (proj2 (authority_key_id_forms (H := sample_collaborators)
                       (sample_crl (Some [crl_number; aki_plain]))
                       (Some [7; 7; 7; 7]) 4 (Some 5) 0 None 0 0 None 0)
                aki_plain (ASN1_created "PKIX1.AuthorityKeyIdentifier")
                {| keyIdentifier := Some [10; 11; 12]; authorityCertIssuer := None;
                   authorityCertSerialNumber := None |})
      as [_ Hplain]; [closed | closed | closed | closed |].
    apply (Hplain [10; 11; 12]); closed.
Defined.

(** ** memmem *)

Lemma starts_with_spec (needle hay : bytes) :
  starts_with needle hay = true <-> exists post, hay = needle ++ post.
Proof.
  revert hay. induction needle as [|n needle IH]; intros hay; simpl.
  - split; [intros _; exists hay; reflexivity | reflexivity].
  - destruct hay as [|h hay].
    + split; [discriminate | intros [post Hp]; discriminate].
    + rewrite andb_true_iff, Z.eqb_eq, IH. split.
      * intros [-> [post ->]]. exists post. reflexivity.
      * intros [post Hp]. injection Hp as -> ->. split; [reflexivity | eauto].
Qed.

(** [memmem] finds nothing exactly when the needle occurs nowhere. *)
Lemma memmem_None (hay needle : bytes) :
  memmem hay needle = None <-> ~ exists pre post, hay = pre ++ needle ++ post.
Proof.
  induction hay as [|h hay IH].
  - simpl. destruct (starts_with needle []) eqn:E.
    + split; [discriminate|]. intros Hno. exfalso. apply Hno.
      apply starts_with_spec in E as [post Hp]. exists [], post. exact Hp.
    + split; [|reflexivity]. intros _ (pre & post & Hp).
      destruct pre; [|discriminate]. simpl in Hp.
      assert (starts_with needle [] = true) by (apply starts_with_spec; eauto).
      congruence.
  - change (memmem (h :: hay) needle)
      with (if starts_with needle (h :: hay) then Some O
            else S <$> memmem hay needle).
    destruct (starts_with needle (h :: hay)) eqn:E.
    + split; [discriminate|]. intros Hno. exfalso. apply Hno.
      apply starts_with_spec in E as [post Hp]. exists [], post. exact Hp.
    + split.
      * intros Hm (pre & post & Hp).
        destruct pre as [|x pre].
        -- simpl in Hp.
           assert (starts_with needle (h :: hay) = true)
             by (apply starts_with_spec; eauto).
           congruence.
        -- injection Hp as _ Hp.
           destruct (memmem hay needle) eqn:Em; [discriminate|].
           apply (proj1 IH eq_refl). eauto.
      * intros Hno.
        assert (Hm : memmem hay needle = None).
        { apply IH. intros (pre & post & Hp). apply Hno.
          exists (h :: pre), post. simpl. rewrite Hp. reflexivity. }
        rewrite Hm. reflexivity.
Qed.

(** The offset [memmem] returns lies inside the buffer. *)
Lemma memmem_Some_le (hay needle : bytes) (k : nat) :
  memmem hay needle = Some k -> (k <= length hay)%nat.
Proof.
  revert k. induction hay as [|h hay IH]; intros k; simpl.
  - destruct (starts_with needle []); [|discriminate].
    intros [= <-]. lia.
  - destruct (starts_with needle (h :: hay)).
    + intros [= <-]. lia.
    + destruct (memmem hay needle) as [j|]; simpl; [|discriminate].
      intros [= <-]. specialize (IH j eq_refl). lia.
Qed.

(** ** The fixed-capacity importer *)

Section ImporterFacts.
Context `{Collaborators}.

(** C10. A PEM call whose buffer holds the boundary marker nowhere returns
    GNUTLS_E_BASE64_DECODING_ERROR at once: no handle is initialized (the
    objects, the allocation count and the faults of the memory are as
    before) and the caller's array and capacity are as they were. *)
Theorem list_import_pem_without_marker (crls : list addr) (crl_max : Z)
    (dat : bytes) (flags : Z) (w : world) :
  ~ (exists pre post, dat = pre ++ PEM_CRL_SEP ++ post) ->
  exists r,
    gnutls_x509_crl_list_import crls crl_max dat GNUTLS_X509_FMT_PEM flags w = Some r
    /\ ret r = GNUTLS_E_BASE64_DECODING_ERROR
    /\ crls_out r = crls
    /\ crl_max_out r = crl_max
    /\ cells (world_out r) = cells w
    /\ requests (world_out r) = requests w
    /\ faults (world_out r) = faults w.
Proof.
  intros Hno. apply memmem_None in Hno.
  unfold gnutls_x509_crl_list_import. rewrite Hno.
  eexists. split; [reflexivity|]. simpl. repeat split; reflexivity.
Qed.

(** *** What the lifecycle operations do to the set of objects *)

Lemma gnutls_free_length (p : addr) (w : world) :
  length (cells (gnutls_free p w)) = length (cells w).
Proof.
  destruct p as [|i]; simpl; [reflexivity|].
  destruct (cells w !! i) as [[o|]|]; simpl; try reflexivity.
  apply length_insert.
Qed.

Lemma gnutls_x509_crl_deinit_length (p : addr) (w : world) :
  length (cells (gnutls_x509_crl_deinit p w)) = length (cells w).
Proof. destruct p; [reflexivity | apply gnutls_free_length]. Qed.

Lemma deinit_loop_length (n j : nat) (crls : list addr) (w : world) :
  length (cells (deinit_loop j n crls w)) = length (cells w).
Proof.
  revert j w. induction n as [|n IH]; intros j w; simpl; [reflexivity|].
  rewrite IH. apply gnutls_x509_crl_deinit_length.
Qed.

Lemma gnutls_x509_crl_init_length (w : world) (r : Z) (p : addr) (w' : world) :
  gnutls_x509_crl_init w = (r, p, w') ->
  (length (cells w) <= length (cells w') <= S (length (cells w)))%nat.
Proof.
  unfold gnutls_x509_crl_init, gnutls_calloc.
  destruct (alloc_fails (requests w)).
  - intros [= <- <- <-]. simpl. lia.
  - destruct (asn1_create_element "PKIX1.CertificateList") as [result t].
    destruct (negb (result =? ASN1_SUCCESS)); intros [= <- <- <-].
    + rewrite lookup_app_r by lia. rewrite Nat.sub_diag. simpl.
      rewrite length_insert, length_app. simpl. lia.
    + simpl. rewrite length_insert, length_app. simpl. lia.
Qed.

Lemma decode_into_length (p : addr) (der : bytes) (w : world) :
  length (cells (snd (decode_into p der w))) = length (cells w).
Proof.
  destruct p as [|i]; simpl; [reflexivity|].
  destruct (cells w !! i) as [[o|]|]; simpl; try reflexivity.
  destruct (asn1_der_decoding (crl o) der). simpl. apply length_insert.
Qed.

Lemma gnutls_x509_crl_import_length (p : addr) (dat : bytes)
    (format : gnutls_x509_crt_fmt_t) (w : world) :
  length (cells (snd (gnutls_x509_crl_import p dat format w))) = length (cells w).
Proof.
  unfold gnutls_x509_crl_import. destruct p as [|i]; [reflexivity|].
  assert (Hd : forall d,
    length (cells (snd (let '(result, w0) := decode_into (S i) d w in
                        if negb (result =? ASN1_SUCCESS)
                        then (_gnutls_asn2err result, w0) else (0, w0))))
    = length (cells w)).
  { intros d. pose proof (decode_into_length (S i) d w) as Hl.
    destruct (decode_into (S i) d w) as [result w0].
    destruct (negb (result =? ASN1_SUCCESS)); exact Hl. }
  destruct format.
  - apply Hd.
  - destruct (_gnutls_fbase64_decode PEM_CRL dat) as [result _data].
    destruct (result <? 0); [reflexivity | apply Hd].
Qed.

(** A fresh object that is created and decoded in place. *)
Lemma init_then_import_der (w : world) (dat : bytes) (el t : ASN1_TYPE) :
  alloc_fails (requests w) = false ->
  asn1_create_element "PKIX1.CertificateList" = (ASN1_SUCCESS, el) ->
  asn1_der_decoding el dat = (ASN1_SUCCESS, t) ->
  exists w1,
    gnutls_x509_crl_init w = (0, S (length (cells w)), w1)
    /\ gnutls_x509_crl_import (S (length (cells w))) dat GNUTLS_X509_FMT_DER w1
       = (0, {| cells := cells w ++ [Live {| crl := t |}];
                requests := S (requests w); faults := faults w;
                trace := trace w |}).
Proof.
  intros Halloc Hcreate Hdecode.
  unfold gnutls_x509_crl_init, gnutls_calloc. rewrite Halloc, Hcreate. simpl.
  eexists. split; [reflexivity|].
  unfold gnutls_x509_crl_import, decode_into. simpl.
  rewrite insert_app_r_alt by lia. rewrite Nat.sub_diag. simpl.
  rewrite lookup_app_r by lia. rewrite Nat.sub_diag. simpl.
  rewrite Hdecode. simpl. unfold set_cells. simpl.
  rewrite insert_app_r_alt by lia. rewrite Nat.sub_diag. reflexivity.
Qed.

(** C8. With DER input: a capacity below 1 makes the call fail with
    GNUTLS_E_SHORT_MEMORY_BUFFER, the capacity set to 1 and no handle
    created; with a capacity of at least 1 and a buffer that decodes,
    exactly one CRL is decoded into one new handle stored in slot 0, the
    capacity is set to 1 and the call returns 1; and whatever the outcome
    the return value never exceeds 1 and at most one object is allocated. *)
Theorem list_import_der_single (crls : list addr) (crl_max : Z) (dat : bytes)
    (flags : Z) (w : world) :
  let call := {| call_slots := length crls; call_crl_max := crl_max;
                 call_flags := flags |} in
  (crl_max < 1 ->
   gnutls_x509_crl_list_import crls crl_max dat GNUTLS_X509_FMT_DER flags w
   = Some {| ret := GNUTLS_E_SHORT_MEMORY_BUFFER; crls_out := crls;
             crl_max_out := 1; world_out := traced call w |})
  /\ (forall el t,
        1 <= crl_max ->
        alloc_fails (requests w) = false ->
        asn1_create_element "PKIX1.CertificateList" = (ASN1_SUCCESS, el) ->
        asn1_der_decoding el dat = (ASN1_SUCCESS, t) ->
        gnutls_x509_crl_list_import crls crl_max dat GNUTLS_X509_FMT_DER flags w
        = Some {| ret := 1; crls_out := <[O := S (length (cells w))]> crls;
                  crl_max_out := 1;
                  world_out :=
                    {| cells := cells w ++ [Live {| crl := t |}];
                       requests := S (requests w); faults := faults w;
                       trace := trace w ++ [call] |} |})
  /\ (exists r,
        gnutls_x509_crl_list_import crls crl_max dat GNUTLS_X509_FMT_DER flags w
        = Some r
        /\ ret r <= 1
        /\ (length (cells (world_out r)) <= S (length (cells w)))%nat).
Proof.
  intros call. split; [|split].
  - intros Hsmall. unfold gnutls_x509_crl_list_import.
    destruct (crl_max <? 1) eqn:E; [reflexivity | apply Z.ltb_ge in E; lia].
  - intros el t Hcap Halloc Hcreate Hdecode.
    unfold gnutls_x509_crl_list_import.
    destruct (crl_max <? 1) eqn:E; [apply Z.ltb_lt in E; lia|].
    destruct (init_then_import_der (traced call w) dat el t Halloc Hcreate Hdecode)
      as (w1 & Hinit & Himport).
    fold call. rewrite Hinit. simpl. simpl in Himport. rewrite Himport.
    reflexivity.
  - unfold gnutls_x509_crl_list_import. fold call.
    destruct (crl_max <? 1).
    { eexists. split; [reflexivity|]. simpl. split; [discriminate | lia]. }
    destruct (gnutls_x509_crl_init (traced call w)) as [[r p] w1] eqn:Hinit.
    apply gnutls_x509_crl_init_length in Hinit. simpl in Hinit.
    destruct (r <? 0) eqn:Er.
    { eexists. split; [reflexivity|]. unfold import_error. cbn [ret world_out].
      apply Z.ltb_lt in Er. rewrite deinit_loop_length. split; lia. }
    pose proof (gnutls_x509_crl_import_length p dat GNUTLS_X509_FMT_DER w1) as Hlen.
    destruct (gnutls_x509_crl_import p dat GNUTLS_X509_FMT_DER w1) as [r' w2].
    simpl in Hlen.
    destruct (r' <? 0) eqn:Er'.
    { eexists. split; [reflexivity|]. unfold import_error. cbn [ret world_out].
      apply Z.ltb_lt in Er'. rewrite deinit_loop_length. split; lia. }
    eexists. split; [reflexivity|]. simpl. split; lia.
Qed.

(** The handle a successful DER call stores in slot 0 is the valid handle
    the accessors are stated for: it points to the decoded structure. *)
Lemma list_import_der_handle (crls : list addr) (crl_max : Z) (dat : bytes)
    (flags : Z) (w : world) (el t : ASN1_TYPE) :
  crls <> [] ->
  1 <= crl_max ->
  alloc_fails (requests w) = false ->
  asn1_create_element "PKIX1.CertificateList" = (ASN1_SUCCESS, el) ->
  asn1_der_decoding el dat = (ASN1_SUCCESS, t) ->
  exists r p,
    gnutls_x509_crl_list_import crls crl_max dat GNUTLS_X509_FMT_DER flags w = Some r
    /\ crls_out r !! O = Some p
    /\ deref (world_out r) p = Some {| crl := t |}.
Proof.
  intros Hcrls Hcap Halloc Hcreate Hdecode.
  unfold gnutls_x509_crl_list_import.
  destruct (crl_max <? 1) eqn:E; [apply Z.ltb_lt in E; lia|].
  set (call := {| call_slots := length crls; call_crl_max := crl_max;
                  call_flags := flags |}).
  destruct (init_then_import_der (traced call w) dat el t Halloc Hcreate Hdecode)
    as (w1 & Hinit & Himport).
  rewrite Hinit. simpl. simpl in Himport. rewrite Himport. simpl.
  eexists. exists (S (length (cells w))). split; [reflexivity|]. simpl.
  destruct crls as [|c crls]; [contradiction|]. split; [reflexivity|].
  rewrite lookup_app_r by lia. rewrite Nat.sub_diag. reflexivity.
Qed.

(** X7. With DER input the handle of a CRL that does not decode is torn down
    before the error is returned: [count] is 1 when the import is tried. *)
Lemma list_import_der_decode_failure_tears_down (crls : list addr) (crl_max : Z)
    (dat : bytes) (flags : Z) (w : world) (el t : ASN1_TYPE) (e : Z) :
  crls <> [] ->
  1 <= crl_max ->
  alloc_fails (requests w) = false ->
  asn1_create_element "PKIX1.CertificateList" = (ASN1_SUCCESS, el) ->
  asn1_der_decoding el dat = (e, t) ->
  e <> ASN1_SUCCESS ->
  exists r,
    gnutls_x509_crl_list_import crls crl_max dat GNUTLS_X509_FMT_DER flags w = Some r
    /\ ret r = _gnutls_asn2err e
    /\ cells (world_out r) = cells w ++ [Freed].
Proof.
  intros Hcrls Hcap Halloc Hcreate Hdecode He.
  unfold gnutls_x509_crl_list_import.
  destruct (crl_max <? 1) eqn:E; [apply Z.ltb_lt in E; lia|].
  unfold gnutls_x509_crl_init, gnutls_calloc. cbn [requests traced].
  rewrite Halloc, Hcreate. simpl.
  unfold decode_into. simpl.
  rewrite insert_app_r_alt by lia. rewrite Nat.sub_diag. simpl.
  rewrite lookup_app_r by lia. rewrite Nat.sub_diag. simpl.
  rewrite Hdecode. simpl.
  destruct (e =? ASN1_SUCCESS) eqn:Ee; [apply Z.eqb_eq in Ee; contradiction|].
  simpl. pose proof (_gnutls_asn2err_neg e) as Hneg.
  destruct (_gnutls_asn2err e <? 0) eqn:En; [|apply Z.ltb_ge in En; lia].
  eexists. split; [reflexivity|]. split; [reflexivity|].
  unfold import_error. cbn [world_out]. simpl.
  destruct crls as [|c crls]; [contradiction|]. simpl.
  rewrite !insert_app_r_alt by lia. rewrite !Nat.sub_diag. simpl.
  rewrite lookup_app_r by lia. rewrite Nat.sub_diag. simpl.
  reflexivity.
Qed.

Lemma gnutls_x509_crl_init_ok (w : world) (el : ASN1_TYPE) :
  alloc_fails (requests w) = false ->
  asn1_create_element "PKIX1.CertificateList" = (ASN1_SUCCESS, el) ->
  gnutls_x509_crl_init w
  = (0, S (length (cells w)),
     {| cells := cells w ++ [Live {| crl := el |}]; requests := S (requests w);
        faults := faults w; trace := trace w |}).
Proof.
  intros Halloc Hcreate. unfold gnutls_x509_crl_init, gnutls_calloc.
  rewrite Halloc, Hcreate. simpl. unfold set_cells. simpl.
  rewrite insert_app_r_alt by lia. rewrite Nat.sub_diag. reflexivity.
Qed.

Lemma gnutls_x509_crl_import_pem_failure (i : nat) (dat body : bytes) (r : Z)
    (w : world) :
  _gnutls_fbase64_decode PEM_CRL dat = (r, body) ->
  r < 0 ->
  gnutls_x509_crl_import (S i) dat GNUTLS_X509_FMT_PEM w = (r, w).
Proof.
  intros Hdecode Hr. unfold gnutls_x509_crl_import. rewrite Hdecode.
  destruct (r <? 0) eqn:Er; [reflexivity | apply Z.ltb_ge in Er; lia].
Qed.

(** X22. With PEM input the handle of a block that does not decode stays live:
    [count] still numbers the handles before it when [error:] is reached.
    Shown for the first block of a buffer. *)
Lemma list_import_pem_decode_failure_keeps_handle (crls : list addr) (crl_max : Z)
    (dat : bytes) (flags : Z) (w : world) (k : nat) (el : ASN1_TYPE) (r : Z)
    (body : bytes) :
  memmem dat PEM_CRL_SEP = Some k ->
  1 <= crl_max ->
  alloc_fails (requests w) = false ->
  asn1_create_element "PKIX1.CertificateList" = (ASN1_SUCCESS, el) ->
  _gnutls_fbase64_decode PEM_CRL
    (take (Z.to_nat (u32 (u32 (len dat) - Z.of_nat k))) (drop k dat)) = (r, body) ->
  r < 0 ->
  exists res,
    gnutls_x509_crl_list_import crls crl_max dat GNUTLS_X509_FMT_PEM flags w = Some res
    /\ ret res = r
    /\ cells (world_out res) = cells w ++ [Live {| crl := el |}].
Proof.
  intros Hm Hcap Halloc Hcreate Hdecode Hr.
  unfold gnutls_x509_crl_list_import. rewrite Hm. cbn [import_loop].
  destruct (crl_max <=? 0) eqn:E; [apply Z.leb_le in E; lia|].
  cbn [andb orb]. unfold import_one.
  rewrite (gnutls_x509_crl_init_ok _ el) by assumption.
  cbn [Z.ltb Z.compare offset ahead].
  rewrite (gnutls_x509_crl_import_pem_failure _ _ body r) by assumption.
  destruct (r <? 0) eqn:Er; [|apply Z.ltb_ge in Er; lia].
  eexists. split; [reflexivity|]. split; reflexivity.
Qed.

(** *** The trace *)

Lemma gnutls_free_trace (p : addr) (w : world) :
  trace (gnutls_free p w) = trace w.
Proof.
  destruct p as [|i]; simpl; [reflexivity|].
  destruct (cells w !! i) as [[o|]|]; reflexivity.
Qed.

Lemma deinit_loop_trace (n j : nat) (crls : list addr) (w : world) :
  trace (deinit_loop j n crls w) = trace w.
Proof.
  revert j w. induction n as [|n IH]; intros j w; simpl; [reflexivity|].
  rewrite IH. destruct (default O (crls !! j)); [reflexivity|].
  apply gnutls_free_trace.
Qed.

Lemma gnutls_x509_crl_init_trace (w : world) :
  trace (snd (gnutls_x509_crl_init w)) = trace w.
Proof.
  unfold gnutls_x509_crl_init, gnutls_calloc.
  destruct (alloc_fails (requests w)); [reflexivity|].
  destruct (asn1_create_element "PKIX1.CertificateList") as [result t].
  destruct (negb (result =? ASN1_SUCCESS)); [|reflexivity].
  cbn [snd]. rewrite gnutls_free_trace. reflexivity.
Qed.

Lemma gnutls_x509_crl_import_trace (p : addr) (dat : bytes)
    (format : gnutls_x509_crt_fmt_t) (w : world) :
  trace (snd (gnutls_x509_crl_import p dat format w)) = trace w.
Proof.
  unfold gnutls_x509_crl_import. destruct p as [|i]; [reflexivity|].
  assert (Hd : forall d,
    trace (snd (let '(result, w0) := decode_into (S i) d w in
                if negb (result =? ASN1_SUCCESS)
                then (_gnutls_asn2err result, w0) else (0, w0)))
    = trace w).
  { intros d. unfold decode_into.
    destruct (cells w !! i) as [[o|]|]; try reflexivity.
    destruct (asn1_der_decoding (crl o) d) as [result t].
    destruct (negb (result =? ASN1_SUCCESS)); reflexivity. }
  destruct format.
  - apply Hd.
  - destruct (_gnutls_fbase64_decode PEM_CRL dat) as [result _data].
    destruct (result <? 0); [reflexivity | apply Hd].
Qed.

Lemma import_one_trace (dsize : Z) (ptr : cursor) (count : Z) (nocopy : bool)
    (crls : list addr) (w : world) :
  match import_one dsize ptr count nocopy crls w with
  | inl (_, _, w') => trace w' = trace w
  | inr (_, w') => trace w' = trace w
  end.
Proof.
  unfold import_one. destruct nocopy; [reflexivity|].
  pose proof (gnutls_x509_crl_init_trace w) as Hi.
  destruct (gnutls_x509_crl_init w) as [[r p] w1]. simpl in Hi.
  destruct (r <? 0); [exact Hi|].
  pose proof (gnutls_x509_crl_import_trace p
                (take (Z.to_nat (u32 (dsize - offset ptr))) (ahead ptr))
                GNUTLS_X509_FMT_PEM w1) as Hm.
  destruct (gnutls_x509_crl_import p
              (take (Z.to_nat (u32 (dsize - offset ptr))) (ahead ptr))
              GNUTLS_X509_FMT_PEM w1) as [r' w2].
  simpl in Hm. destruct (r' <? 0); congruence.
Qed.

Lemma import_loop_trace (fuel : nat) (dsize flags crl_max : Z) (ptr : cursor)
    (count : Z) (nocopy : bool) (crls : list addr) (w : world) (r : import_result) :
  import_loop fuel dsize flags crl_max ptr count nocopy crls w = Some r ->
  trace (world_out r) = trace w.
Proof.
  revert ptr count nocopy crls w.
  induction fuel as [|fuel IH]; intros ptr count nocopy crls w; simpl; [discriminate|].
  destruct ((crl_max <=? count) && negb (strict flags)).
  { intros [= <-]. reflexivity. }
  pose proof (import_one_trace dsize ptr count (nocopy || (crl_max <=? count)) crls w) as Ht.
  destruct (import_one dsize ptr count (nocopy || (crl_max <=? count)) crls w)
    as [[[r0 crls0] w0] | [crls0 w0]].
  { intros [= <-]. unfold import_error. cbn [world_out].
    rewrite deinit_loop_trace. exact Ht. }
  destruct (scan_next dsize ptr) as [ptr'|].
  - intros Hl. apply IH in Hl. congruence.
  - intros [= <-]. exact Ht.
Qed.

(** *** The loop comes to its end *)

(** Every search moves the pointer on: less of the buffer is ahead. *)
Lemma scan_next_shorter (dsize : Z) (ptr ptr' : cursor) :
  scan_next dsize ptr = Some ptr' ->
  (length (ahead ptr') < length (ahead ptr))%nat.
Proof.
  unfold scan_next.
  destruct (0 <? s32 (dsize - offset (advance ptr 1))); [|discriminate].
  destruct (memmem _ PEM_CRL_SEP) as [k|] eqn:Em; [|discriminate].
  intros [= <-]. simpl. rewrite !length_drop.
  destruct (ahead ptr) as [|b rest] eqn:Ea; [|simpl; lia].
  exfalso. unfold advance in Em. cbn [ahead] in Em. rewrite Ea in Em.
  rewrite drop_nil, take_nil in Em. vm_compute in Em. discriminate.
Qed.

Lemma import_loop_total (fuel : nat) (dsize flags crl_max : Z) (ptr : cursor)
    (count : Z) (nocopy : bool) (crls : list addr) (w : world) :
  (length (ahead ptr) < fuel)%nat ->
  exists r, import_loop fuel dsize flags crl_max ptr count nocopy crls w = Some r.
Proof.
  revert ptr count nocopy crls w.
  induction fuel as [|fuel IH]; intros ptr count nocopy crls w Hf; [lia|].
  simpl.
  destruct ((crl_max <=? count) && negb (strict flags)); [eauto|].
  destruct (import_one dsize ptr count (nocopy || (crl_max <=? count)) crls w)
    as [[[r0 crls0] w0] | [crls0 w0]]; [eauto|].
  destruct (scan_next dsize ptr) as [ptr'|] eqn:Es; [|eauto].
  apply scan_next_shorter in Es.
  apply IH; lia.
Qed.

(** The fixed-capacity importer always returns, and adds its own entry to
    the trace and nothing else. *)
Lemma list_import_returns (crls : list addr) (crl_max : Z) (dat : bytes)
    (format : gnutls_x509_crt_fmt_t) (flags : Z) (w : world) :
  exists r,
    gnutls_x509_crl_list_import crls crl_max dat format flags w = Some r
    /\ trace (world_out r)
       = trace w ++ [{| call_slots := length crls; call_crl_max := crl_max;
                        call_flags := flags |}].
Proof.
  unfold gnutls_x509_crl_list_import.
  set (call := {| call_slots := length crls; call_crl_max := crl_max;
                  call_flags := flags |}).
  destruct format.
  - destruct (crl_max <? 1); [eexists; split; reflexivity|].
    pose proof (gnutls_x509_crl_init_trace (traced call w)) as Hi.
    destruct (gnutls_x509_crl_init (traced call w)) as [[r p] w1]. simpl in Hi.
    destruct (r <? 0).
    { eexists. split; [reflexivity|]. unfold import_error. cbn [world_out].
      rewrite deinit_loop_trace. exact Hi. }
    pose proof (gnutls_x509_crl_import_trace p dat GNUTLS_X509_FMT_DER w1) as Hm.
    destruct (gnutls_x509_crl_import p dat GNUTLS_X509_FMT_DER w1) as [r' w2].
    simpl in Hm. destruct (r' <? 0).
    { eexists. split; [reflexivity|]. unfold import_error. cbn [world_out].
      rewrite deinit_loop_trace. congruence. }
    eexists. split; [reflexivity|]. cbn [world_out]. congruence.
  - destruct (memmem dat PEM_CRL_SEP) as [ptr|] eqn:Em;
      [|eexists; split; reflexivity].
    destruct (import_loop_total (S (length dat)) (u32 (len dat)) flags crl_max
                {| offset := Z.of_nat ptr; ahead := drop ptr dat |} 0 false crls
                (traced call w)) as [r Hr]; [simpl; rewrite length_drop; lia|].
    exists r. split; [exact Hr|].
    apply import_loop_trace in Hr. exact Hr.
Qed.

(** ** The auto-growing importer *)

(** C3 as the code has it. [gnutls_x509_crl_list_import2] always returns.
    It allocates an array of the default capacity 1024 and calls the
    fixed-capacity importer on it with that capacity and with the strict
    flag set.  When that call returns GNUTLS_E_SHORT_MEMORY_BUFFER it
    reallocates the array to exactly the capacity reported back and calls
    the importer exactly once more, now with the flags of its own caller;
    otherwise it calls it no second time.  No call makes more than these
    two entries, so there is at most one regrowth and retry. *)
Theorem list_import2_single_regrowth (size : Z) (dat : bytes)
    (format : gnutls_x509_crt_fmt_t) (flags : Z) (w : world) :
  let first := {| call_slots := 1024; call_crl_max := 1024;
                  call_flags := GNUTLS_X509_CRT_LIST_IMPORT_FAIL_IF_EXCEED |} in
  exists r2,
    gnutls_x509_crl_list_import2 size dat format flags w = Some r2
    /\ ((alloc_fails (requests w) = true
         /\ ret2 r2 = GNUTLS_E_MEMORY_ERROR
         /\ trace (world2 r2) = trace w)
        \/ (exists r1,
              gnutls_x509_crl_list_import (replicate 1024 O) 1024 dat format
                GNUTLS_X509_CRT_LIST_IMPORT_FAIL_IF_EXCEED (requested w) = Some r1
              /\ ((ret r1 <> GNUTLS_E_SHORT_MEMORY_BUFFER
                   /\ trace (world2 r2) = trace w ++ [first])
                  \/ (ret r1 = GNUTLS_E_SHORT_MEMORY_BUFFER
                      /\ alloc_fails (requests (world_out r1)) = true
                      /\ ret2 r2 = GNUTLS_E_MEMORY_ERROR
                      /\ trace (world2 r2) = trace w ++ [first])
                  \/ (ret r1 = GNUTLS_E_SHORT_MEMORY_BUFFER
                      /\ trace (world2 r2)
                         = trace w
                           ++ [first;
                               {| call_slots := Z.to_nat (crl_max_out r1);
                                  call_crl_max := crl_max_out r1;
                                  call_flags := flags |}])))).
Proof.
  intros first. unfold gnutls_x509_crl_list_import2, gnutls_malloc_array.
  destruct (alloc_fails (requests w)) eqn:Ha.
  { eexists. split; [reflexivity|]. left. repeat split. }
  change (Z.to_nat 1024) with 1024%nat.
  destruct (list_import_returns (replicate 1024 O) 1024 dat format
              GNUTLS_X509_CRT_LIST_IMPORT_FAIL_IF_EXCEED (requested w))
    as (r1 & Hr1 & Ht1).
  rewrite length_replicate in Ht1. simpl in Ht1. fold first in Ht1.
  rewrite Hr1.
  destruct (ret r1 =? GNUTLS_E_SHORT_MEMORY_BUFFER) eqn:Es.
  - apply Z.eqb_eq in Es. unfold gnutls_realloc_fast_array.
    destruct (alloc_fails (requests (world_out r1))) eqn:Ha2.
    { eexists. split; [reflexivity|]. right. exists r1. split; [reflexivity|].
      right. left. repeat split; assumption. }
    set (arr := take (Z.to_nat (crl_max_out r1))
                  (crls_out r1 ++ replicate (Z.to_nat (crl_max_out r1)) O)).
    destruct (list_import_returns arr (crl_max_out r1) dat format flags
                (requested (world_out r1))) as (r & Hr & Ht).
    rewrite Hr. simpl. eexists. split; [reflexivity|].
    right. exists r1. split; [reflexivity|]. right. right. split; [exact Es|].
    assert (Hlen : length arr = Z.to_nat (crl_max_out r1)).
    { unfold arr. rewrite length_take, length_app, length_replicate. lia. }
    rewrite Hlen in Ht. simpl in Ht. rewrite Ht1 in Ht.
    rewrite <- app_assoc in Ht. simpl in Ht.
    destruct (ret r <? 0); exact Ht.
  - apply Z.eqb_neq in Es. eexists. split; [reflexivity|].
    right. exists r1. split; [reflexivity|]. left. split; [exact Es|].
    destruct (ret r1 <? 0); exact Ht1.
Qed.

End ImporterFacts.

Lemma list_import_pem_without_marker_witness :
  exists r,
    gnutls_x509_crl_list_import (H := sample_collaborators) [5; 6]%nat 2
      (bytes_of_string "-----BEGIN CERTIFICATE-----0-----END CERTIFICATE-----")
      GNUTLS_X509_FMT_PEM 0 empty_world = Some r
    /\ ret r = GNUTLS_E_BASE64_DECODING_ERROR
    /\ crls_out r = [5; 6]%nat
    /\ crl_max_out r = 2
    /\ cells (world_out r) = cells empty_world
    /\ requests (world_out r) = requests empty_world
    /\ faults (world_out r) = faults empty_world.
Proof.
  apply (list_import_pem_without_marker (H := sample_collaborators)).
  apply memmem_None. closed.
Defined.

Lemma list_import_der_single_witness :
  gnutls_x509_crl_list_import (H := sample_collaborators) [] 0 [48; 1; 2]
    GNUTLS_X509_FMT_DER 0 empty_world
  = Some {| ret := GNUTLS_E_SHORT_MEMORY_BUFFER; crls_out := []; crl_max_out := 1;
            world_out :=
              traced {| call_slots := 0; call_crl_max := 0; call_flags := 0 |}
                empty_world |}
  /\ gnutls_x509_crl_list_import (H := sample_collaborators) [7; 7]%nat 2 [48; 1; 2]
       GNUTLS_X509_FMT_DER 0 empty_world
     = Some {| ret := 1; crls_out := [1; 7]%nat; crl_max_out := 1;
               world_out :=
                 {| cells :=
                      [Live {| crl := snd (sample_der_decoding
                                             (ASN1_created "PKIX1.CertificateList")
                                             [48; 1; 2]) |}];
                    requests := 1; faults := 0;
                    trace := [{| call_slots := 2; call_crl_max := 2;
                                 call_flags := 0 |}] |} |}.
Proof.
  split.
  - apply (list_import_der_single (H := sample_collaborators) [] 0 [48; 1; 2] 0
             empty_world).
    closed.
  - apply (proj1 (proj2 (list_import_der_single (H := sample_collaborators)
                           [7; 7]%nat 2 [48; 1; 2] 0 empty_world))
             (ASN1_created "PKIX1.CertificateList")); closed.
Defined.

Lemma import2_summary_Some (r : option import2_result) (a b : Z)
    (t : list import_call) (n m : nat) :
  import2_summary r = Some (a, b, t, n, m) ->
  exists r2,
    r = Some r2 /\ ret2 r2 = a /\ size2 r2 = b /\ trace (world2 r2) = t
    /\ length (live_handles (world2 r2)) = n
    /\ length (default [] (crls2 r2)) = m.
Proof.
  destruct r as [r2|]; [|discriminate].
  intros [= <- <- <- <- <-]. exists r2. repeat split.
Qed.

(** A run on 1025 blocks, each of which decodes, from an empty memory and
    with no flag. *)
Lemma list_import2_1025_blocks :
  import2_summary
    (gnutls_x509_crl_list_import2 (H := sample_collaborators) 0 (pem_blocks 1025)
       GNUTLS_X509_FMT_PEM 0 empty_world)
  = Some (0, 1025,
          [{| call_slots := 1024; call_crl_max := 1024;
              call_flags := GNUTLS_X509_CRT_LIST_IMPORT_FAIL_IF_EXCEED |};
           {| call_slots := 1025; call_crl_max := 1025; call_flags := 0 |}],
          2049%nat, 1025%nat).
Proof. vm_compute. reflexivity. Qed.

(** The claim C3 has the retry run with the strict flag set.  On a buffer
    of 1025 blocks and a caller that passes no flag, the first call is made
    with the strict flag and a capacity of 1024, and the one retry with a
    capacity of 1025 and the flags 0 of the caller: the strict flag is not
    set in it. *)
Lemma list_import2_retry_has_caller_flags :
  exists r2,
    gnutls_x509_crl_list_import2 (H := sample_collaborators) 0 (pem_blocks 1025)
      GNUTLS_X509_FMT_PEM 0 empty_world = Some r2
    /\ ret2 r2 = 0
    /\ size2 r2 = 1025
    /\ trace (world2 r2)
       = [{| call_slots := 1024; call_crl_max := 1024;
             call_flags := GNUTLS_X509_CRT_LIST_IMPORT_FAIL_IF_EXCEED |};
          {| call_slots := 1025; call_crl_max := 1025; call_flags := 0 |}]
    /\ strict 0 = false.
Proof.
  destruct (import2_summary_Some _ _ _ _ _ _ list_import2_1025_blocks)
    as (r2 & Hr & Hret & Hsize & Htrace & _ & _).
  exists r2. split; [exact Hr|]. split; [exact Hret|]. split; [exact Hsize|].
  split; [exact Htrace | reflexivity].
Qed.

(** ** Errors of the fixed-capacity importer and the handles they leave *)

(** C1 does not hold on the code.  Three runs from an empty memory:
    - three blocks of which the second does not decode, capacity 3, no flag:
      the call returns the decode error, the handle of the first block is
      freed, and the handle initialized for the second block is still live;
    - three blocks that decode, capacity 2, strict flag: the call returns
      GNUTLS_E_SHORT_MEMORY_BUFFER and reports 3, and both handles it
      initialized are still live;
    - 1025 blocks through [gnutls_x509_crl_list_import2]: the call succeeds
      with 1025 handles, and 2049 objects are live, the 1024 of the aborted
      first attempt among them. *)
Theorem list_import_error_leaves_live_handles :
  (exists r,
     gnutls_x509_crl_list_import (H := sample_collaborators) (replicate 3 O) 3
       pem_second_malformed GNUTLS_X509_FMT_PEM 0 empty_world = Some r
     /\ ret r = GNUTLS_E_ASN1_DER_ERROR
     /\ crls_out r = [1; 2; 0]%nat
     /\ cells (world_out r) = [Freed; Live {| crl := ASN1_TYPE_EMPTY |}]
     /\ live_handles (world_out r) = [2%nat])
  /\ (exists r,
        gnutls_x509_crl_list_import (H := sample_collaborators) (replicate 2 O) 2
          pem_three GNUTLS_X509_FMT_PEM GNUTLS_X509_CRT_LIST_IMPORT_FAIL_IF_EXCEED
          empty_world = Some r
        /\ ret r = GNUTLS_E_SHORT_MEMORY_BUFFER
        /\ crl_max_out r = 3
        /\ live_handles (world_out r) = [1; 2]%nat)
  /\ (exists r2,
        gnutls_x509_crl_list_import2 (H := sample_collaborators) 0 (pem_blocks 1025)
          GNUTLS_X509_FMT_PEM 0 empty_world = Some r2
        /\ ret2 r2 = 0
        /\ length (default [] (crls2 r2)) = 1025%nat
        /\ length (live_handles (world2 r2)) = 2049%nat).
Proof.
  split; [|split].
  - eexists. split; [vm_compute; reflexivity|]. repeat split.
  - eexists. split; [vm_compute; reflexivity|]. repeat split.
  - destruct (import2_summary_Some _ _ _ _ _ _ list_import2_1025_blocks)
      as (r2 & Hr & Hret & _ & _ & Hlive & Hslots).
    exists r2. split; [exact Hr|]. split; [exact Hret|].
    split; [exact Hslots | exact Hlive].
Qed.

(** ** The size-negotiation protocol *)


(** X1. A slip next to it: [gnutls_x509_crl_get_extension_data] tests the
    result of the adapter with [result < 0], which no result code of the
    adapter satisfies, so a buffer that is too small is answered with
    success and the required length, where
    [gnutls_x509_crl_get_extension_info] answers
    GNUTLS_E_SHORT_MEMORY_BUFFER. *)
Lemma get_extension_data_short_buffer_succeeds (cl : CertificateList) (indx : Z)
    (e : Extension) (dat : option bytes) (sizeof_data : Z) :
  0 <= indx <= INT_MAX ->
  extensions cl !! Z.to_nat indx = Some e ->
  0 <= sizeof_data < len (extnValue e) ->
  len (extnValue e) < 2 ^ 31 ->
  gnutls_x509_crl_get_extension_data (Some {| crl := ASN1_CertificateList cl |})
    indx dat sizeof_data
  = (0, dat, len (extnValue e)).
Proof.
  intros Hi He Hsize Hlen.
  unfold gnutls_x509_crl_get_extension_data, asn1_read_value. simpl.
  rewrite nth_child_index by lia. rewrite He. simpl.
  rewrite s32_small by lia.
  destruct (sizeof_data <? len (extnValue e)) eqn:E; [|apply Z.ltb_ge in E; lia].
  simpl. rewrite u64_small by lia. reflexivity.
Qed.

Section SizeNegotiation.
Context `{Collaborators}.




End SizeNegotiation.


(** * Further properties of crl.c *)

(** ** Buffers that are too small *)

(** X2. [gnutls_x509_crl_get_extension_info] at the index of an extension,
    with a size below the length of the OID text and its NUL: it returns
    GNUTLS_E_SHORT_MEMORY_BUFFER, reports that length, and leaves the
    buffer and the critical flag of the caller as they were.  A buffer of
    exactly the text length, without room for the NUL, is too small. *)
Theorem get_extension_info_short_buffer (cl : CertificateList) (indx : Z)
    (e : Extension) (oid : option bytes) (sizeof_oid : Z) (crit : option Z)
    (str_critical : bytes) :
  0 <= indx <= INT_MAX ->
  extensions cl !! Z.to_nat indx = Some e ->
  0 <= sizeof_oid <= len (extnID e) ->
  len (extnID e) + 1 < 2 ^ 31 ->
  gnutls_x509_crl_get_extension_info (Some {| crl := ASN1_CertificateList cl |})
    indx oid sizeof_oid crit str_critical
  = (GNUTLS_E_SHORT_MEMORY_BUFFER, oid, len (extnID e) + 1, crit).
Proof.
  intros Hi He Hsize Hlen.
  unfold gnutls_x509_crl_get_extension_info, asn1_read_value. simpl.
  rewrite nth_child_index by lia. rewrite He. simpl.
  rewrite s32_small by lia.
  destruct (sizeof_oid <? len (extnID e) + 1) eqn:E; [|apply Z.ltb_ge in E; lia].
  simpl. rewrite u64_small by lia. reflexivity.
Qed.

Lemma get_extension_info_short_buffer_witness :
  gnutls_x509_crl_get_extension_info (sample_handle (Some [aki_plain; crl_number])) 0
    (Some (replicate 9 7)) 9 (Some 5) (replicate 10 0)
  = (GNUTLS_E_SHORT_MEMORY_BUFFER, Some (replicate 9 7), len (extnID aki_plain) + 1,
     Some 5).
Proof.
  apply (get_extension_info_short_buffer (sample_crl (Some [aki_plain; crl_number])) 0
           aki_plain); closed.
Defined.

Lemma get_extension_data_short_buffer_succeeds_witness :
  gnutls_x509_crl_get_extension_data (sample_handle (Some [aki_plain; crl_number])) 1
    (Some [7]) 1
  = (0, Some [7], len (extnValue crl_number)).
Proof.
  apply (get_extension_data_short_buffer_succeeds
           (sample_crl (Some [aki_plain; crl_number])) 1 crl_number); closed.
Defined.

Section FurtherDecoders.
Context `{Collaborators}.

(** X3. [gnutls_x509_crl_get_authority_key_id] on an Authority Key
    Identifier that decodes to a keyIdentifier, with a size below its
    length: it returns GNUTLS_E_SHORT_MEMORY_BUFFER, reports the length and
    leaves the buffer as it was; the critical flag has been written. *)
Theorem get_authority_key_id_short_buffer (cl : CertificateList)
    (id : option bytes) (id_size : Z) (crit : option Z) (e : Extension)
    (el : ASN1_TYPE) (a : AuthorityKeyIdentifier) (kid : bytes) :
  find_extension (extensions cl) OID_AUTHORITY_KEY_ID 0 = Some e ->
  0 < len (extnValue e) < 2 ^ 32 ->
  asn1_create_element "PKIX1.AuthorityKeyIdentifier" = (ASN1_SUCCESS, el) ->
  asn1_der_decoding el (extnValue e) = (ASN1_SUCCESS, ASN1_AuthorityKeyIdentifier a) ->
  keyIdentifier a = Some kid ->
  0 <= id_size < len kid ->
  len kid < 2 ^ 31 ->
  gnutls_x509_crl_get_authority_key_id (Some {| crl := ASN1_CertificateList cl |})
    id id_size crit
  = (GNUTLS_E_SHORT_MEMORY_BUFFER, id, len kid,
     store_uint crit (if critical e then 1 else 0)).
Proof.
  intros Hfind Hlen Hcreate Hdecode Hkid Hsize Hk.
  unfold gnutls_x509_crl_get_authority_key_id.
  rewrite (_get_authority_key_id_decoded cl crit e el a) by assumption.
  simpl. unfold asn1_read_value. simpl. rewrite Hkid. simpl.
  rewrite s32_small by lia.
  destruct (id_size <? len kid) eqn:E; [|apply Z.ltb_ge in E; lia].
  simpl. rewrite u64_small by lia. reflexivity.
Qed.

(** X4. [gnutls_x509_crl_get_authority_key_gn_serial] tests the adapter's
    answer for the serial number with [result < 0], which no result code of
    the adapter satisfies.  Once the GeneralName has been read, a serial
    buffer that is too small is answered with success: nothing is copied
    and the size is set to the length of the serial number.  A structure
    without authorityCertSerialNumber is answered with success as well. *)
Theorem get_authority_key_gn_serial_ignores_serial_failure (cl : CertificateList)
    (seq : Z) (alt : option bytes) (alt_size alt_type : Z) (buf : bytes)
    (serial_size : Z) (crit : option Z) (e : Extension) (el : ASN1_TYPE)
    (a : AuthorityKeyIdentifier) (r : Z) (alt' : option bytes)
    (alt_size' alt_type' : Z) :
  find_extension (extensions cl) OID_AUTHORITY_KEY_ID 0 = Some e ->
  0 < len (extnValue e) < 2 ^ 32 ->
  asn1_create_element "PKIX1.AuthorityKeyIdentifier" = (ASN1_SUCCESS, el) ->
  asn1_der_decoding el (extnValue e) = (ASN1_SUCCESS, ASN1_AuthorityKeyIdentifier a) ->
  _gnutls_parse_general_name (ASN1_AuthorityKeyIdentifier a) seq alt alt_size
  = (r, alt', alt_size', alt_type') ->
  0 <= r ->
  let crit' := store_uint crit (if critical e then 1 else 0) in
  (forall sn,
     authorityCertSerialNumber a = Some sn ->
     0 <= serial_size < len sn ->
     len sn < 2 ^ 31 ->
     gnutls_x509_crl_get_authority_key_gn_serial
       (Some {| crl := ASN1_CertificateList cl |}) seq alt alt_size alt_type
       (Some buf) serial_size crit
     = (0, alt', alt_size', alt_type', Some buf, len sn, crit'))
  /\ (authorityCertSerialNumber a = None ->
      0 <= serial_size < 2 ^ 31 ->
      gnutls_x509_crl_get_authority_key_gn_serial
        (Some {| crl := ASN1_CertificateList cl |}) seq alt alt_size alt_type
        (Some buf) serial_size crit
      = (0, alt', alt_size', alt_type', Some buf, serial_size, crit')).
Proof.
  intros Hfind Hlen Hcreate Hdecode Hparse Hr crit'. subst crit'.
  assert (Er : (r <? 0) = false) by (apply Z.ltb_ge; lia).
  split.
  - intros sn Hsn Hsize Hk.
    unfold gnutls_x509_crl_get_authority_key_gn_serial.
    rewrite (_get_authority_key_id_decoded cl crit e el a) by assumption.
    simpl. rewrite Hparse, Er. unfold asn1_read_value. simpl. rewrite Hsn. simpl.
    rewrite s32_small by lia.
    destruct (serial_size <? len sn) eqn:E; [|apply Z.ltb_ge in E; lia].
    simpl. rewrite u64_small by lia. reflexivity.
  - intros Hsn Hsize.
    unfold gnutls_x509_crl_get_authority_key_gn_serial.
    rewrite (_get_authority_key_id_decoded cl crit e el a) by assumption.
    simpl. rewrite Hparse, Er. unfold asn1_read_value. simpl. rewrite Hsn. simpl.
    rewrite s32_small by lia. rewrite u64_small by lia. reflexivity.
Qed.

(** X5. [gnutls_x509_crl_get_number] on a handle without CRL Number
    extension returns GNUTLS_E_REQUESTED_DATA_NOT_AVAILABLE.  By then the
    given size of a buffer has been zero-filled and its size is as given;
    for a NULL buffer the size has been set to 0.  The critical flag is as
    it was. *)
Theorem get_number_absent (cl : CertificateList) (ret : option bytes)
    (ret_size : Z) (crit : option Z) :
  find_extension (extensions cl) OID_CRL_NUMBER 0 = None ->
  gnutls_x509_crl_get_number (Some {| crl := ASN1_CertificateList cl |})
    ret ret_size crit
  = (GNUTLS_E_REQUESTED_DATA_NOT_AVAILABLE,
     (fun b => memset0 b ret_size) <$> ret,
     match ret with Some _ => ret_size | None => 0 end,
     crit).
Proof.
  intros Hfind.
  unfold gnutls_x509_crl_get_number, _gnutls_x509_crl_get_extension. simpl.
  fold (extensions cl). rewrite Hfind. simpl.
  destruct ret; reflexivity.
Qed.

End FurtherDecoders.

Lemma get_authority_key_id_short_buffer_witness :
  gnutls_x509_crl_get_authority_key_id (H := sample_collaborators)
    (sample_handle (Some [crl_number; aki_plain])) (Some [7; 7]) 2 (Some 5)
  = (GNUTLS_E_SHORT_MEMORY_BUFFER, Some [7; 7], 3, Some 0).
Proof.
  apply (get_authority_key_id_short_buffer (H := sample_collaborators)
           (sample_crl (Some [crl_number; aki_plain])) (Some [7; 7]) 2 (Some 5)
           aki_plain (ASN1_created "PKIX1.AuthorityKeyIdentifier")
           {| keyIdentifier := Some [10; 11; 12]; authorityCertIssuer := None;
              authorityCertSerialNumber := None |} [10; 11; 12]); closed.
Defined.

Lemma get_authority_key_gn_serial_ignores_serial_failure_witness :
  gnutls_x509_crl_get_authority_key_gn_serial (H := sample_collaborators)
    (sample_handle (Some [aki_gn_serial])) 0 (Some [7; 7; 7]) 3 9 (Some []) 0 (Some 5)
  = (0, Some [67; 65; 7], 2, 0, Some [], 1, Some 0).
Proof.
  destruct (get_authority_key_gn_serial_ignores_serial_failure
              (H := sample_collaborators) (sample_crl (Some [aki_gn_serial]))
              0 (Some [7; 7; 7]) 3 9 [] 0 (Some 5) aki_gn_serial
              (ASN1_created "PKIX1.AuthorityKeyIdentifier")
              {| keyIdentifier := None; authorityCertIssuer := Some [[67; 65]];
                 authorityCertSerialNumber := Some [1] |}
              0 (Some [67; 65; 7]) 2 0)
    as [Hshort _]; [closed | closed | closed | closed | closed | closed |].
  apply (Hshort [1]); closed.
Defined.

Lemma get_number_absent_witness :
  gnutls_x509_crl_get_number (H := sample_collaborators)
    (sample_handle (Some [aki_plain])) (Some [7; 7; 7]) 2 (Some 5)
  = (GNUTLS_E_REQUESTED_DATA_NOT_AVAILABLE, Some [0; 0; 7], 2, Some 5).
Proof.
  apply (get_number_absent (H := sample_collaborators) (sample_crl (Some [aki_plain]))
           (Some [7; 7; 7]) 2 (Some 5)).
  closed.
Defined.

(** X6. [gnutls_x509_crl_get_version] returns a negative error code or a
    number from 1 to 256, whatever the handle holds and whatever the local
    array held on entry: it never returns 0, and no version field, however
    long, makes it return a number above 256. *)
Theorem get_version_range (c : gnutls_x509_crl_t) (version : bytes) :
  gnutls_x509_crl_get_version c version < 0
  \/ 1 <= gnutls_x509_crl_get_version c version <= 256.
Proof.
  unfold gnutls_x509_crl_get_version. destruct c as [c|].
  - destruct (asn1_read_value (crl c) name_version (Some version) 8)
      as [[result version'] l].
    destruct (negb (result =? ASN1_SUCCESS)).
    + left. apply _gnutls_asn2err_neg.
    + right. unfold u8.
      pose proof (Z.mod_pos_bound (nth 0 (default [] version') 0) (2 ^ 8)) as Hb.
      change (2 ^ 8) with 256 in *. lia.
  - left. reflexivity.
Qed.

(** ** Enumerating the revoked certificates *)

Lemma nth_child_revoked (cl : CertificateList) (indx : Z) :
  0 <= indx <= INT_MAX ->
  nth_child (tbsCertList_revokedCertificates cl) (u32 (indx + 1))
  = revoked cl !! Z.to_nat indx.
Proof.
  intros Hi. unfold INT_MAX in Hi. unfold nth_child, revoked.
  rewrite u32_small by lia.
  destruct (tbsCertList_revokedCertificates cl); simpl; [|reflexivity].
  destruct (1 <=? indx + 1) eqn:E; [|apply Z.leb_gt in E; lia].
  f_equal. lia.
Qed.

Lemma get_crt_count_revoked (cl : CertificateList) :
  gnutls_x509_crl_get_crt_count (Some {| crl := ASN1_CertificateList cl |})
  = Z.of_nat (length (revoked cl)).
Proof.
  unfold gnutls_x509_crl_get_crt_count, asn1_number_of_elements, revoked. simpl.
  destruct (tbsCertList_revokedCertificates cl); reflexivity.
Qed.

(** X8. The count of [gnutls_x509_crl_get_crt_count] is the bound of
    [gnutls_x509_crl_get_crt_serial]: at every index from 0 below the count
    there is an entry, and a call with a buffer that holds its serial
    number succeeds, copies the serial number, sets the size to its length
    and stores the revocation time; at the count and at every index beyond
    it the call returns GNUTLS_E_REQUESTED_DATA_NOT_AVAILABLE and leaves
    buffer and time as they were. *)
Theorem get_crt_serial_bounded_by_count (cl : CertificateList) (indx : Z)
    (serial : option bytes) (serial_size : Z) (t : option Z) :
  let h := Some {| crl := ASN1_CertificateList cl |} in
  indx <= INT_MAX ->
  (0 <= indx < gnutls_x509_crl_get_crt_count h ->
   exists e,
     revoked cl !! Z.to_nat indx = Some e
     /\ (len (userCertificate e) <= serial_size < 2 ^ 31 ->
         gnutls_x509_crl_get_crt_serial h indx serial serial_size t
         = (0, store serial (userCertificate e), len (userCertificate e),
            store_uint t (revocationDate e))))
  /\ (gnutls_x509_crl_get_crt_count h <= indx ->
      exists n,
        gnutls_x509_crl_get_crt_serial h indx serial serial_size t
        = (GNUTLS_E_REQUESTED_DATA_NOT_AVAILABLE, serial, n, t)).
Proof.
  intros h Hmax. subst h. rewrite get_crt_count_revoked. split.
  - intros Hi.
    destruct (revoked cl !! Z.to_nat indx) as [e|] eqn:He.
    2:{ apply lookup_ge_None in He. lia. }
    exists e. split; [reflexivity|]. intros Hsize.
    pose proof (len_nonneg (userCertificate e)).
    unfold gnutls_x509_crl_get_crt_serial, userCertificate_node,
      _gnutls_x509_get_time. simpl.
    rewrite nth_child_revoked by lia. rewrite He. simpl.
    rewrite s32_small by lia.
    destruct (serial_size <? len (userCertificate e)) eqn:E;
      [apply Z.ltb_lt in E; lia|].
    simpl. rewrite u64_small by lia. reflexivity.
  - intros Hi.
    destruct (Z_lt_le_dec indx 0) as [Hneg|Hpos].
    + (* the index printed by %u is far beyond every entry *)
      unfold gnutls_x509_crl_get_crt_serial, userCertificate_node. simpl.
      assert (Hnone : nth_child (tbsCertList_revokedCertificates cl) (u32 (indx + 1))
                      = None).
      { pose proof (Zle_0_nat (length (revoked cl))). lia. }
      rewrite Hnone. simpl. eexists. reflexivity.
    + assert (Hnone : revoked cl !! Z.to_nat indx = None)
        by (apply lookup_ge_None; lia).
      unfold gnutls_x509_crl_get_crt_serial, userCertificate_node. simpl.
      rewrite nth_child_revoked by lia. rewrite Hnone. simpl.
      eexists. reflexivity.
Qed.

Lemma get_crt_serial_bounded_by_count_witness :
  (exists e,
     revoked sample_crl_revoked !! Z.to_nat 1 = Some e
     /\ (len (userCertificate e) <= 4 < 2 ^ 31 ->
         gnutls_x509_crl_get_crt_serial
           (Some {| crl := ASN1_CertificateList sample_crl_revoked |}) 1
           (Some [7; 7; 7; 7]) 4 (Some 0)
         = (0, store (Some [7; 7; 7; 7]) (userCertificate e),
            len (userCertificate e), store_uint (Some 0) (revocationDate e))))
  /\ (exists n,
        gnutls_x509_crl_get_crt_serial
          (Some {| crl := ASN1_CertificateList sample_crl_revoked |}) 2
          (Some [7; 7; 7; 7]) 4 (Some 0)
        = (GNUTLS_E_REQUESTED_DATA_NOT_AVAILABLE, Some [7; 7; 7; 7], n, Some 0)).
Proof.
  split.
  - apply (get_crt_serial_bounded_by_count sample_crl_revoked 1 (Some [7; 7; 7; 7]) 4
             (Some 0)); closed.
  - apply (get_crt_serial_bounded_by_count sample_crl_revoked 2 (Some [7; 7; 7; 7]) 4
             (Some 0)); closed.
Defined.

(** X9. [gnutls_x509_crl_get_crt_serial] at the index of an entry, with a
    size below the length of its serial number: it returns
    GNUTLS_E_SHORT_MEMORY_BUFFER, reports that length, copies nothing and
    does not store the revocation time. *)
Theorem get_crt_serial_short_buffer (cl : CertificateList) (indx : Z)
    (e : RevokedCertificate) (serial : option bytes) (serial_size : Z)
    (t : option Z) :
  0 <= indx <= INT_MAX ->
  revoked cl !! Z.to_nat indx = Some e ->
  0 <= serial_size < len (userCertificate e) ->
  len (userCertificate e) < 2 ^ 31 ->
  gnutls_x509_crl_get_crt_serial (Some {| crl := ASN1_CertificateList cl |})
    indx serial serial_size t
  = (GNUTLS_E_SHORT_MEMORY_BUFFER, serial, len (userCertificate e), t).
Proof.
  intros Hi He Hsize Hlen.
  unfold gnutls_x509_crl_get_crt_serial, userCertificate_node. simpl.
  rewrite nth_child_revoked by lia. rewrite He. simpl.
  rewrite s32_small by lia.
  destruct (serial_size <? len (userCertificate e)) eqn:E; [|apply Z.ltb_ge in E; lia].
  simpl. rewrite u64_small by lia. reflexivity.
Qed.

Lemma get_crt_serial_short_buffer_witness :
  gnutls_x509_crl_get_crt_serial
    (Some {| crl := ASN1_CertificateList sample_crl_revoked |}) 0
    (Some [7; 7]) 2 (Some 0)
  = (GNUTLS_E_SHORT_MEMORY_BUFFER, Some [7; 7], 3, Some 0).
Proof.
  apply (get_crt_serial_short_buffer sample_crl_revoked 0
           {| userCertificate := [1; 2; 3]; revocationDate := 1000 |}); closed.
Defined.

(** ** The objects of the importer *)

Section ImporterObjects.
Context `{Collaborators}.

Lemma alive_length (w : world) : length (alive w) = length (cells w).
Proof. unfold alive. apply length_fmap. Qed.

Lemma alive_lookup_live (w : world) (i : nat) :
  alive w !! i = Some true -> exists o, cells w !! i = Some (Live o).
Proof.
  unfold alive. rewrite list_lookup_fmap.
  destruct (cells w !! i) as [[o|]|]; simpl; try discriminate. eauto.
Qed.

Lemma gnutls_free_live (i : nat) (w : world) :
  alive w !! i = Some true ->
  alive (gnutls_free (S i) w) = <[i := false]> (alive w)
  /\ faults (gnutls_free (S i) w) = faults w.
Proof.
  intros Hl. destruct (alive_lookup_live w i Hl) as [o Ho].
  unfold gnutls_free. rewrite Ho. unfold alive. simpl.
  rewrite list_fmap_insert. split; reflexivity.
Qed.

(** What [gnutls_x509_crl_init] leaves: no object, a freed one, or a live
    one at the next address. *)
Lemma gnutls_x509_crl_init_outcome (w : world) (r : Z) (p : addr) (w' : world) :
  gnutls_x509_crl_init w = (r, p, w') ->
  faults w' = faults w
  /\ ((r < 0 /\ p = O /\ alive w' = alive w)
      \/ (r < 0 /\ p = S (length (cells w)) /\ alive w' = alive w ++ [false])
      \/ (r = 0 /\ p = S (length (cells w)) /\ alive w' = alive w ++ [true])).
Proof.
  unfold gnutls_x509_crl_init, gnutls_calloc.
  destruct (alloc_fails (requests w)).
  - intros [= <- <- <-]. split; [reflexivity|]. left. repeat split.
  - destruct (asn1_create_element "PKIX1.CertificateList") as [result t].
    destruct (negb (result =? ASN1_SUCCESS)); intros [= <- <- <-].
    + unfold gnutls_free. cbn [cells requested set_cells].
      rewrite lookup_app_r by lia. rewrite Nat.sub_diag. simpl.
      split; [reflexivity|]. right. left.
      split; [apply _gnutls_asn2err_neg|]. split; [reflexivity|].
      unfold alive. simpl. rewrite insert_app_r_alt by lia.
      rewrite Nat.sub_diag. simpl. rewrite fmap_app. reflexivity.
    + split; [reflexivity|]. right. right. split; [reflexivity|].
      split; [reflexivity|].
      unfold alive. simpl. rewrite insert_app_r_alt by lia.
      rewrite Nat.sub_diag. simpl. rewrite fmap_app. reflexivity.
Qed.

Lemma decode_into_alive (p : addr) (der : bytes) (w : world) :
  alive (snd (decode_into p der w)) = alive w.
Proof.
  destruct p as [|i]; simpl; [reflexivity|].
  destruct (cells w !! i) as [[o|]|] eqn:Ho; simpl; try reflexivity.
  destruct (asn1_der_decoding (crl o) der). unfold alive. simpl.
  rewrite list_fmap_insert. simpl. apply list_insert_id.
  rewrite list_lookup_fmap, Ho. reflexivity.
Qed.

Lemma decode_into_faults (i : nat) (der : bytes) (w : world) :
  alive w !! i = Some true ->
  faults (snd (decode_into (S i) der w)) = faults w.
Proof.
  intros Hl. destruct (alive_lookup_live w i Hl) as [o Ho].
  simpl. rewrite Ho. destruct (asn1_der_decoding (crl o) der). reflexivity.
Qed.

Lemma gnutls_x509_crl_import_objects (p : addr) (dat : bytes)
    (format : gnutls_x509_crt_fmt_t) (w : world) :
  alive (snd (gnutls_x509_crl_import p dat format w)) = alive w
  /\ (forall i, p = S i -> alive w !! i = Some true ->
      faults (snd (gnutls_x509_crl_import p dat format w)) = faults w)
  /\ (p = O ->
      gnutls_x509_crl_import p dat format w = (GNUTLS_E_INVALID_REQUEST, w)).
Proof.
  assert (Hd : forall i d,
    snd (let '(result, w0) := decode_into (S i) d w in
         if negb (result =? ASN1_SUCCESS)
         then (_gnutls_asn2err result, w0) else (0, w0))
    = snd (decode_into (S i) d w)).
  { intros i d. destruct (decode_into (S i) d w) as [result w0].
    destruct (negb (result =? ASN1_SUCCESS)); reflexivity. }
  split; [|split].
  - unfold gnutls_x509_crl_import. destruct p as [|i]; [reflexivity|].
    destruct format.
    + rewrite Hd. apply decode_into_alive.
    + destruct (_gnutls_fbase64_decode PEM_CRL dat) as [result _data].
      destruct (result <? 0); [reflexivity|]. rewrite Hd. apply decode_into_alive.
  - intros i -> Hl. unfold gnutls_x509_crl_import. destruct format.
    + rewrite Hd. apply decode_into_faults. exact Hl.
    + destruct (_gnutls_fbase64_decode PEM_CRL dat) as [result _data].
      destruct (result <? 0); [reflexivity|]. rewrite Hd.
      apply decode_into_faults. exact Hl.
  - intros ->. reflexivity.
Qed.

(** X10. [gnutls_x509_crl_import] neither allocates nor frees: whatever
    the handle, the buffer, the format and the outcome, the same objects
    are live afterwards; on a live handle it touches no memory it should
    not, and a NULL handle is refused with GNUTLS_E_INVALID_REQUEST and
    nothing done. *)
Theorem gnutls_x509_crl_import_keeps_objects (p : addr) (dat : bytes)
    (format : gnutls_x509_crt_fmt_t) (w : world) :
  alive (snd (gnutls_x509_crl_import p dat format w)) = alive w
  /\ (forall i, p = S i -> alive w !! i = Some true ->
      faults (snd (gnutls_x509_crl_import p dat format w)) = faults w)
  /\ (p = O ->
      gnutls_x509_crl_import p dat format w = (GNUTLS_E_INVALID_REQUEST, w)).
Proof. apply gnutls_x509_crl_import_objects. Qed.

(** The [error:] loop frees the handles of the slots it goes through. *)
Lemma deinit_loop_frees (n0 : nat) (crls : list addr) (post : list bool) (n : nat) :
  forall (j : nat) (pre : list bool) (w : world),
    length pre = (n0 + j)%nat ->
    alive w = pre ++ replicate n true ++ post ->
    (forall i, (i < n)%nat -> crls !! (j + i)%nat = Some (S (n0 + (j + i)))) ->
    alive (deinit_loop j n crls w) = pre ++ replicate n false ++ post
    /\ faults (deinit_loop j n crls w) = faults w.
Proof.
  induction n as [|n IH]; intros j pre w Hpre Halive Hslots.
  - simpl. split; [exact Halive | reflexivity].
  - cbn [deinit_loop]. pose proof (Hslots O ltac:(lia)) as Hj.
    rewrite Nat.add_0_r in Hj. rewrite Hj. cbn [default from_option id].
    change (gnutls_x509_crl_deinit (S (n0 + j)) w) with (gnutls_free (S (n0 + j)) w).
    assert (Hl : alive w !! (n0 + j)%nat = Some true).
    { rewrite Halive. rewrite lookup_app_r by lia.
      replace (n0 + j - length pre)%nat with O by lia. reflexivity. }
    destruct (gnutls_free_live _ w Hl) as [Ha Hf].
    destruct (IH (S j) (pre ++ [false]) (gnutls_free (S (n0 + j)) w)) as [Ha' Hf'].
    + rewrite length_app. simpl. lia.
    + rewrite Ha, Halive. rewrite insert_app_r_alt by lia.
      replace (n0 + j - length pre)%nat with O by lia. simpl.
      rewrite <- app_assoc. reflexivity.
    + intros i Hi. specialize (Hslots (S i) ltac:(lia)).
      replace (S j + i)%nat with (j + S i)%nat by lia. exact Hslots.
    + split; [|congruence]. rewrite Ha'. rewrite <- app_assoc. reflexivity.
Qed.

End ImporterObjects.

(** ** How a PEM call ends *)

Section PemOutcome.
Context `{Collaborators}.
Variables (w0 : world) (crls0 : list addr) (dsize flags crl_max : Z).
Hypothesis Hcap : 0 <= crl_max < 2 ^ 32.
Hypothesis Hslots0 : (Z.to_nat crl_max <= length crls0)%nat.

Lemma beyond_same_insert (crls : list addr) (i : nat) (p : addr) :
  (i < Z.to_nat crl_max)%nat ->
  beyond_same crls crls0 (Z.to_nat crl_max) ->
  beyond_same (<[i := p]> crls) crls0 (Z.to_nat crl_max).
Proof.
  intros Hi [Hlen Hsame]. split.
  - rewrite length_insert. exact Hlen.
  - intros k Hk. rewrite list_lookup_insert_ne by lia. apply Hsame. exact Hk.
Qed.

Lemma slots_hold_insert_below (crls : list addr) (n0 c : nat) (p : addr) :
  slots_hold crls n0 c -> slots_hold (<[c := p]> crls) n0 c.
Proof.
  intros Hs i Hi. rewrite list_lookup_insert_ne by lia. apply Hs. exact Hi.
Qed.

Lemma slots_hold_insert_next (crls : list addr) (n0 c : nat) :
  (c < length crls)%nat ->
  slots_hold crls n0 c ->
  slots_hold (<[c := S (n0 + c)]> crls) n0 (S c).
Proof.
  intros Hc Hs i Hi. destruct (Nat.eq_dec i c) as [->|Hne].
  - apply list_lookup_insert_eq. exact Hc.
  - rewrite list_lookup_insert_ne by lia. apply Hs. lia.
Qed.

(** The loop keeps: while it copies, the objects it has allocated are as
    many as [count], all live and in the first slots; once it only counts,
    they are as many as the capacity. *)
Lemma import_loop_outcome (fuel : nat) :
  forall (ptr : cursor) (count : Z) (nocopy : bool) (crls : list addr) (w : world)
         (r : import_result),
    import_loop fuel dsize flags crl_max ptr count nocopy crls w = Some r ->
    0 <= count ->
    faults w = faults w0 ->
    beyond_same crls crls0 (Z.to_nat crl_max) ->
    (nocopy = false ->
     count <= crl_max
     /\ alive w = alive w0 ++ replicate (Z.to_nat count) true
     /\ slots_hold crls (length (cells w0)) (Z.to_nat count)) ->
    (nocopy = true ->
     strict flags = true
     /\ alive w = alive w0 ++ replicate (Z.to_nat crl_max) true
     /\ slots_hold crls (length (cells w0)) (Z.to_nat crl_max)) ->
    faults (world_out r) = faults w0
    /\ beyond_same (crls_out r) crls0 (Z.to_nat crl_max)
    /\ import_outcome w0 flags crl_max r.
Proof.
  induction fuel as [|fuel IH];
    intros ptr count nocopy crls w r Hloop Hcount Hfaults Hbeyond Hcopy Hcounting;
    [discriminate|].
  cbn [import_loop] in Hloop.
  destruct ((crl_max <=? count) && negb (strict flags)) eqn:Ebrk.
  { (* break *)
    apply andb_true_iff in Ebrk as [Hex Hns]. apply Z.leb_le in Hex.
    apply negb_true_iff in Hns.
    destruct nocopy.
    { destruct (Hcounting eq_refl) as [Hs _]. congruence. }
    destruct (Hcopy eq_refl) as (Hle & Halive & Hsl).
    injection Hloop as <-. unfold import_finish. cbn [ret crls_out crl_max_out world_out].
    split; [exact Hfaults|]. split; [exact Hbeyond|].
    apply import_committed; cbn [ret crls_out crl_max_out world_out]; [reflexivity | lia | exact Halive | exact Hsl]. }
  destruct (nocopy || (crl_max <=? count)) eqn:Enc.
  - (* counting only *)
    assert (Hinv : strict flags = true
                   /\ alive w = alive w0 ++ replicate (Z.to_nat crl_max) true
                   /\ slots_hold crls (length (cells w0)) (Z.to_nat crl_max)).
    { destruct nocopy; [apply Hcounting; reflexivity|].
      simpl in Enc. rewrite Enc in Ebrk. simpl in Ebrk.
      apply negb_false_iff in Ebrk. apply Z.leb_le in Enc.
      destruct (Hcopy eq_refl) as (Hle & Halive & Hsl).
      replace crl_max with count by lia. repeat split; assumption. }
    unfold import_one in Hloop. cbn iota in Hloop.
    destruct (scan_next dsize ptr) as [ptr'|].
    + apply (IH ptr' (u32 (count + 1)) true crls w r Hloop);
        [unfold u32; apply Z.mod_pos_bound; lia | exact Hfaults | exact Hbeyond
        | discriminate | intros _; exact Hinv].
    + injection Hloop as <-. unfold import_finish. cbn [ret crls_out crl_max_out world_out].
      destruct Hinv as (Hs & Halive & Hsl).
      split; [exact Hfaults|]. split; [exact Hbeyond|].
      apply import_aborted; cbn [ret crls_out crl_max_out world_out];
        first [assumption | reflexivity].
  - (* copying *)
    apply orb_false_iff in Enc as [-> Hlt]. apply Z.leb_gt in Hlt.
    destruct (Hcopy eq_refl) as (_ & Halive & Hsl).
    assert (Hc : (Z.to_nat count < Z.to_nat crl_max)%nat) by lia.
    assert (Hcells : length (cells w) = (length (cells w0) + Z.to_nat count)%nat).
    { rewrite <- !alive_length, Halive, length_app, length_replicate. reflexivity. }
    destruct Hbeyond as [Hlen Hsame].
    unfold import_one in Hloop. cbn iota in Hloop.
    destruct (gnutls_x509_crl_init w) as [[r0 p] w1] eqn:Hinit.
    destruct (gnutls_x509_crl_init_outcome w r0 p w1 Hinit)
      as [Hf1 [(Hr0 & Hp & Ha1) | [(Hr0 & Hp & Ha1) | (Hr0 & Hp & Ha1)]]].
    + (* no object *)
      destruct (r0 <? 0) eqn:Er0; [|apply Z.ltb_ge in Er0; lia].
      injection Hloop as <-. unfold import_error. cbn [ret crls_out crl_max_out world_out].
      destruct (deinit_loop_frees (length (cells w0))
                  (<[Z.to_nat count := p]> crls) [] (Z.to_nat count) O (alive w0) w1)
        as [Ha Hf].
      * rewrite alive_length. lia.
      * rewrite Ha1, Halive, app_nil_r. reflexivity.
      * intros i Hi. simpl. apply slots_hold_insert_below; [exact Hsl | exact Hi].
      * split; [congruence|].
        split; [apply beyond_same_insert; [exact Hc | split; assumption]|].
        apply (import_failed _ _ _ _ (Z.to_nat count) []); cbn [ret crls_out crl_max_out world_out];
          [exact Hr0 | reflexivity | simpl; lia | exact Ha | auto].
    + (* a freed object *)
      destruct (r0 <? 0) eqn:Er0; [|apply Z.ltb_ge in Er0; lia].
      injection Hloop as <-. unfold import_error. cbn [ret crls_out crl_max_out world_out].
      destruct (deinit_loop_frees (length (cells w0))
                  (<[Z.to_nat count := p]> crls) [false] (Z.to_nat count) O
                  (alive w0) w1)
        as [Ha Hf].
      * rewrite alive_length. lia.
      * rewrite Ha1, Halive, <- app_assoc. reflexivity.
      * intros i Hi. simpl. apply slots_hold_insert_below; [exact Hsl | exact Hi].
      * split; [congruence|].
        split; [apply beyond_same_insert; [exact Hc | split; assumption]|].
        apply (import_failed _ _ _ _ (Z.to_nat count) [false]); cbn [ret crls_out crl_max_out world_out];
          [exact Hr0 | reflexivity | simpl; lia | exact Ha | auto].
    + (* a live object *)
      subst r0. cbn [Z.ltb Z.compare] in Hloop.
      set (tmp := take (Z.to_nat (u32 (dsize - offset ptr))) (ahead ptr)) in *.
      destruct (gnutls_x509_crl_import_objects p tmp GNUTLS_X509_FMT_PEM w1)
        as (Ha2 & Hf2 & _).
      assert (Hlive : alive w1 !! (length (cells w0) + Z.to_nat count)%nat = Some true).
      { rewrite Ha1, Halive, <- app_assoc.
        rewrite lookup_app_r by (rewrite alive_length; lia).
        rewrite alive_length.
        replace (length (cells w0) + Z.to_nat count - length (cells w0))%nat
          with (Z.to_nat count) by lia.
        rewrite lookup_app_r by (rewrite length_replicate; lia).
        rewrite length_replicate, Nat.sub_diag. reflexivity. }
      rewrite Hcells in Hp.
      specialize (Hf2 _ Hp Hlive).
      destruct (gnutls_x509_crl_import p tmp GNUTLS_X509_FMT_PEM w1) as [r1 w2].
      cbn [snd] in Ha2, Hf2.
      destruct (r1 <? 0) eqn:Er1.
      * apply Z.ltb_lt in Er1.
        injection Hloop as <-. unfold import_error.
        cbn [ret crls_out crl_max_out world_out].
        destruct (deinit_loop_frees (length (cells w0))
                    (<[Z.to_nat count := p]> crls) [true] (Z.to_nat count) O
                    (alive w0) w2)
          as [Ha Hf].
        -- rewrite alive_length. lia.
        -- rewrite Ha2, Ha1, Halive, <- app_assoc. reflexivity.
        -- intros i Hi. simpl. apply slots_hold_insert_below; [exact Hsl | exact Hi].
        -- split; [congruence|].
           split; [apply beyond_same_insert; [exact Hc | split; assumption]|].
           apply (import_failed _ _ _ _ (Z.to_nat count) [true]); cbn [ret crls_out crl_max_out world_out];
             [exact Er1 | reflexivity | simpl; lia | exact Ha | auto].
      * assert (Hu : u32 (count + 1) = count + 1) by (apply u32_small; lia).
        rewrite Hu in Hloop.
        assert (Hnext : Z.to_nat (count + 1) = S (Z.to_nat count)) by lia.
        assert (Ha3 : alive w2 = alive w0 ++ replicate (Z.to_nat (count + 1)) true).
        { rewrite Ha2, Ha1, Halive, Hnext, <- app_assoc.
          rewrite replicate_S_end. reflexivity. }
        assert (Hsl3 : slots_hold (<[Z.to_nat count := p]> crls) (length (cells w0))
                         (Z.to_nat (count + 1))).
        { rewrite Hnext, Hp. apply slots_hold_insert_next; [lia | exact Hsl]. }
        assert (Hb3 : beyond_same (<[Z.to_nat count := p]> crls) crls0
                        (Z.to_nat crl_max))
          by (apply beyond_same_insert; [exact Hc | split; assumption]).
        destruct (scan_next dsize ptr) as [ptr'|].
        -- apply (IH ptr' (count + 1) false _ w2 r Hloop);
             [lia | congruence | exact Hb3
             | intros _; repeat split; [lia | exact Ha3 | exact Hsl3]
             | discriminate].
        -- injection Hloop as <-. unfold import_finish. cbn [ret crls_out crl_max_out world_out].
           split; [congruence|]. split; [exact Hb3|].
           apply import_committed; cbn [ret crls_out crl_max_out world_out]; [reflexivity | lia | exact Ha3 | exact Hsl3].
Qed.

End PemOutcome.

Section PemTheorems.
Context `{Collaborators}.

(** Every PEM call with a capacity that the array has ends in one of the
    three ways, without a fault and with the array untouched from the
    capacity on. *)
Lemma list_import_pem_outcome (crls : list addr) (crl_max : Z) (dat : bytes)
    (flags : Z) (w : world) :
  0 <= crl_max < 2 ^ 32 ->
  (Z.to_nat crl_max <= length crls)%nat ->
  exists r,
    gnutls_x509_crl_list_import crls crl_max dat GNUTLS_X509_FMT_PEM flags w = Some r
    /\ faults (world_out r) = faults w
    /\ beyond_same (crls_out r) crls (Z.to_nat crl_max)
    /\ import_outcome w flags crl_max r.
Proof.
  intros Hcap Hslots.
  destruct (list_import_returns crls crl_max dat GNUTLS_X509_FMT_PEM flags w)
    as (r & Hr & _).
  exists r. split; [exact Hr|].
  unfold gnutls_x509_crl_list_import in Hr.
  set (call := {| call_slots := length crls; call_crl_max := crl_max;
                  call_flags := flags |}) in *.
  destruct (memmem dat PEM_CRL_SEP) as [k|].
  - destruct (import_loop_outcome (traced call w) crls (u32 (len dat)) flags crl_max
                Hcap Hslots _ _ _ _ _ _ r Hr) as (Hf & Hb & Ho).
    + lia.
    + reflexivity.
    + split; [reflexivity | intros; reflexivity].
    + intros _. split; [lia|]. split; [symmetry; apply app_nil_r|].
      intros i Hi. simpl in Hi. lia.
    + discriminate.
    + split; [exact Hf|]. split; [exact Hb|].
      destruct Ho as [H1 H2 H3 H4 | H1 H2 H3 H4 | c tail H1 H2 H3 H4 H5].
      * apply import_committed; assumption.
      * apply import_aborted; assumption.
      * apply (import_failed _ _ _ _ c tail); assumption.
  - injection Hr as <-. cbn [ret crls_out crl_max_out world_out].
    split; [reflexivity|]. split; [split; [reflexivity | intros; reflexivity]|].
    apply (import_failed _ _ _ _ O []); cbn [ret crls_out crl_max_out world_out].
    + reflexivity.
    + reflexivity.
    + simpl. lia.
    + simpl. rewrite app_nil_r. reflexivity.
    + auto.
Qed.

Lemma s32_nonneg_small (x : Z) : 0 <= x < 2 ^ 32 -> 0 <= s32 x -> s32 x = x.
Proof.
  intros Hx Hs. unfold s32 in *.
  destruct (Z_lt_le_dec x (2 ^ 31)) as [Hlt|Hge].
  - rewrite Z.mod_small by lia. lia.
  - exfalso. replace (x + 2 ^ 31) with (x - 2 ^ 31 + 1 * 2 ^ 32) in Hs by lia.
    rewrite Z.mod_add in Hs by lia. rewrite Z.mod_small in Hs by lia. lia.
Qed.

(** X11. A PEM call that returns a count leaves exactly that many new
    objects: the count is the capacity written back and is within the
    capacity given; the objects the call allocated are that many, all live,
    and their handles sit in the first slots of the array in the order of
    allocation; every object that was there before is live or freed as
    before, and nothing was freed twice. *)
Theorem list_import_pem_success (crls : list addr) (crl_max : Z) (dat : bytes)
    (flags : Z) (w : world) :
  0 <= crl_max < 2 ^ 32 ->
  (Z.to_nat crl_max <= length crls)%nat ->
  exists r,
    gnutls_x509_crl_list_import crls crl_max dat GNUTLS_X509_FMT_PEM flags w = Some r
    /\ (0 <= ret r ->
        ret r = crl_max_out r
        /\ ret r <= crl_max
        /\ alive (world_out r) = alive w ++ replicate (Z.to_nat (ret r)) true
        /\ slots_hold (crls_out r) (length (cells w)) (Z.to_nat (ret r))
        /\ faults (world_out r) = faults w).
Proof.
  intros Hcap Hslots.
  destruct (list_import_pem_outcome crls crl_max dat flags w Hcap Hslots)
    as (r & Hr & Hf & _ & Ho).
  exists r. split; [exact Hr|]. intros Hret.
  destruct Ho as [H1 H2 H3 H4 | H1 H2 H3 H4 | c tail H1 H2 H3 H4 H5].
  - rewrite H1 in Hret. assert (Hs : s32 (crl_max_out r) = crl_max_out r)
      by (apply s32_nonneg_small; lia).
    rewrite H1, Hs. repeat split; try assumption; lia.
  - rewrite H2 in Hret. exfalso. revert Hret. unfold GNUTLS_E_SHORT_MEMORY_BUFFER. lia.
  - lia.
Qed.

(** X12. A PEM call that fails and writes back another capacity than it
    was given has been aborted under the strict flag: it returns
    GNUTLS_E_SHORT_MEMORY_BUFFER, and the handles it initialized, as many
    as the capacity given, are all still live in the first slots of the
    array. *)
Theorem list_import_pem_abort_keeps_handles (crls : list addr) (crl_max : Z)
    (dat : bytes) (flags : Z) (w : world) :
  0 <= crl_max < 2 ^ 31 ->
  (Z.to_nat crl_max <= length crls)%nat ->
  exists r,
    gnutls_x509_crl_list_import crls crl_max dat GNUTLS_X509_FMT_PEM flags w = Some r
    /\ (ret r < 0 ->
        crl_max_out r <> crl_max ->
        strict flags = true
        /\ ret r = GNUTLS_E_SHORT_MEMORY_BUFFER
        /\ alive (world_out r) = alive w ++ replicate (Z.to_nat crl_max) true
        /\ slots_hold (crls_out r) (length (cells w)) (Z.to_nat crl_max)).
Proof.
  intros Hcap Hslots.
  destruct (list_import_pem_outcome crls crl_max dat flags w ltac:(lia) Hslots)
    as (r & Hr & Hf & _ & Ho).
  exists r. split; [exact Hr|]. intros Hret Hne.
  destruct Ho as [H1 H2 H3 H4 | H1 H2 H3 H4 | c tail H1 H2 H3 H4 H5].
  - exfalso. rewrite H1, s32_small in Hret by lia. lia.
  - repeat split; assumption.
  - contradiction.
Qed.

(** X13. What a failing PEM call leaves of the objects it allocated:
    either all of them live (the strict abort), or all but the last freed,
    the last one being absent, freed or still live. *)
Theorem list_import_pem_failure_leaves (crls : list addr) (crl_max : Z)
    (dat : bytes) (flags : Z) (w : world) :
  0 <= crl_max < 2 ^ 31 ->
  (Z.to_nat crl_max <= length crls)%nat ->
  exists r,
    gnutls_x509_crl_list_import crls crl_max dat GNUTLS_X509_FMT_PEM flags w = Some r
    /\ (ret r < 0 ->
        (strict flags = true
         /\ ret r = GNUTLS_E_SHORT_MEMORY_BUFFER
         /\ alive (world_out r) = alive w ++ replicate (Z.to_nat crl_max) true)
        \/ (exists (c : nat) (tail : list bool),
              crl_max_out r = crl_max
              /\ (c + length tail <= Z.to_nat crl_max)%nat
              /\ alive (world_out r) = alive w ++ replicate c false ++ tail
              /\ (tail = [] \/ tail = [false] \/ tail = [true]))).
Proof.
  intros Hcap Hslots.
  destruct (list_import_pem_outcome crls crl_max dat flags w ltac:(lia) Hslots)
    as (r & Hr & Hf & _ & Ho).
  exists r. split; [exact Hr|]. intros Hret.
  destruct Ho as [H1 H2 H3 H4 | H1 H2 H3 H4 | c tail H1 H2 H3 H4 H5].
  - exfalso. rewrite H1, s32_small in Hret by lia. lia.
  - left. repeat split; assumption.
  - right. exists c, tail. repeat split; assumption.
Qed.

(** X14. Whatever the buffer, the flags and the outcome, a PEM call frees
    nothing twice, leaves every object that was there before live or freed
    as it was, and allocates no more objects than the capacity. *)
Theorem list_import_pem_memory_safe (crls : list addr) (crl_max : Z)
    (dat : bytes) (flags : Z) (w : world) :
  0 <= crl_max < 2 ^ 32 ->
  (Z.to_nat crl_max <= length crls)%nat ->
  exists r,
    gnutls_x509_crl_list_import crls crl_max dat GNUTLS_X509_FMT_PEM flags w = Some r
    /\ faults (world_out r) = faults w
    /\ take (length (cells w)) (alive (world_out r)) = alive w
    /\ (length (cells w) <= length (cells (world_out r))
        <= length (cells w) + Z.to_nat crl_max)%nat.
Proof.
  intros Hcap Hslots.
  destruct (list_import_pem_outcome crls crl_max dat flags w Hcap Hslots)
    as (r & Hr & Hf & _ & Ho).
  exists r. split; [exact Hr|]. split; [exact Hf|].
  rewrite <- (alive_length w), <- (alive_length (world_out r)).
  destruct Ho as [H1 H2 H3 H4 | H1 H2 H3 H4 | c tail H1 H2 H3 H4 H5];
    rewrite ?H3, ?H4; (split; [apply take_app_length|]);
    rewrite !length_app, ?length_replicate; lia.
Qed.

(** X15. Neither format stores a handle at or beyond the capacity: the
    array keeps its length, and every slot from the capacity on keeps its
    content. *)
Theorem list_import_writes_within_capacity (crls : list addr) (crl_max : Z)
    (dat : bytes) (format : gnutls_x509_crt_fmt_t) (flags : Z) (w : world) :
  0 <= crl_max < 2 ^ 32 ->
  (Z.to_nat crl_max <= length crls)%nat ->
  exists r,
    gnutls_x509_crl_list_import crls crl_max dat format flags w = Some r
    /\ length (crls_out r) = length crls
    /\ (forall i, (Z.to_nat crl_max <= i)%nat -> crls_out r !! i = crls !! i).
Proof.
  intros Hcap Hslots. destruct format.
  - destruct (list_import_returns crls crl_max dat GNUTLS_X509_FMT_DER flags w)
      as (r & Hr & _).
    exists r. split; [exact Hr|].
    unfold gnutls_x509_crl_list_import in Hr.
    destruct (crl_max <? 1) eqn:E.
    { injection Hr as <-. split; [reflexivity | intros; reflexivity]. }
    apply Z.ltb_ge in E.
    assert (Hins : forall p,
      length (<[O := p]> crls) = length crls
      /\ (forall i, (Z.to_nat crl_max <= i)%nat -> <[O := p]> crls !! i = crls !! i)).
    { intros p. split; [apply length_insert|].
      intros i Hi. apply list_lookup_insert_ne. lia. }
    destruct (gnutls_x509_crl_init _) as [[r0 p] w1].
    destruct (r0 <? 0); [injection Hr as <-; apply Hins|].
    destruct (gnutls_x509_crl_import p dat GNUTLS_X509_FMT_DER w1) as [r1 w2].
    destruct (r1 <? 0); injection Hr as <-; apply Hins.
  - destruct (list_import_pem_outcome crls crl_max dat flags w Hcap Hslots)
      as (r & Hr & _ & [Hlen Hsame] & _).
    exists r. split; [exact Hr|]. split; assumption.
Qed.

End PemTheorems.

Lemma list_import_pem_success_witness :
  exists r,
    gnutls_x509_crl_list_import (H := sample_collaborators) (replicate 3 O) 3
      pem_three GNUTLS_X509_FMT_PEM 0 empty_world = Some r
    /\ 0 <= ret r
    /\ ret r = crl_max_out r
    /\ ret r <= 3
    /\ alive (world_out r) = alive empty_world ++ replicate (Z.to_nat (ret r)) true
    /\ slots_hold (crls_out r) (length (cells empty_world)) (Z.to_nat (ret r))
    /\ faults (world_out r) = faults empty_world.
Proof.
  destruct (list_import_pem_success (H := sample_collaborators) (replicate 3 O) 3
              pem_three 0 empty_world) as (r & Hr & Himp); [closed | simpl; lia |].
  assert (Hp : 0 <= ret r).
  { pose proof Hr as Hr'. vm_compute in Hr'. injection Hr' as <-. closed. }
  exists r. split; [exact Hr|]. split; [exact Hp | exact (Himp Hp)].
Defined.

Lemma list_import_pem_abort_keeps_handles_witness :
  exists r,
    gnutls_x509_crl_list_import (H := sample_collaborators) (replicate 2 O) 2
      pem_three GNUTLS_X509_FMT_PEM GNUTLS_X509_CRT_LIST_IMPORT_FAIL_IF_EXCEED
      empty_world = Some r
    /\ ret r < 0
    /\ crl_max_out r <> 2
    /\ strict GNUTLS_X509_CRT_LIST_IMPORT_FAIL_IF_EXCEED = true
    /\ ret r = GNUTLS_E_SHORT_MEMORY_BUFFER
    /\ alive (world_out r) = alive empty_world ++ replicate (Z.to_nat 2) true
    /\ slots_hold (crls_out r) (length (cells empty_world)) (Z.to_nat 2).
Proof.
  destruct (list_import_pem_abort_keeps_handles (H := sample_collaborators)
              (replicate 2 O) 2 pem_three
              GNUTLS_X509_CRT_LIST_IMPORT_FAIL_IF_EXCEED empty_world)
    as (r & Hr & Himp); [closed | simpl; lia |].
  assert (Hp : ret r < 0 /\ crl_max_out r <> 2).
  { pose proof Hr as Hr'. vm_compute in Hr'. injection Hr' as <-. closed. }
  exists r. split; [exact Hr|]. split; [exact (proj1 Hp)|].
  split; [exact (proj2 Hp) | exact (Himp (proj1 Hp) (proj2 Hp))].
Defined.

Lemma list_import_pem_failure_leaves_witness :
  exists r,
    gnutls_x509_crl_list_import (H := sample_collaborators) (replicate 3 O) 3
      pem_second_malformed GNUTLS_X509_FMT_PEM 0 empty_world = Some r
    /\ ret r < 0
    /\ ((strict 0 = true
         /\ ret r = GNUTLS_E_SHORT_MEMORY_BUFFER
         /\ alive (world_out r) = alive empty_world ++ replicate (Z.to_nat 3) true)
        \/ (exists (c : nat) (tail : list bool),
              crl_max_out r = 3
              /\ (c + length tail <= Z.to_nat 3)%nat
              /\ alive (world_out r) = alive empty_world ++ replicate c false ++ tail
              /\ (tail = [] \/ tail = [false] \/ tail = [true]))).
Proof.
  destruct (list_import_pem_failure_leaves (H := sample_collaborators)
              (replicate 3 O) 3 pem_second_malformed 0 empty_world)
    as (r & Hr & Himp); [closed | simpl; lia |].
  assert (Hp : ret r < 0).
  { pose proof Hr as Hr'. vm_compute in Hr'. injection Hr' as <-. closed. }
  exists r. split; [exact Hr|]. split; [exact Hp | exact (Himp Hp)].
Defined.

Lemma list_import_pem_memory_safe_witness :
  exists r,
    gnutls_x509_crl_list_import (H := sample_collaborators) (replicate 3 O) 3
      pem_second_malformed GNUTLS_X509_FMT_PEM 0 empty_world = Some r
    /\ faults (world_out r) = faults empty_world
    /\ take (length (cells empty_world)) (alive (world_out r)) = alive empty_world
    /\ (length (cells empty_world) <= length (cells (world_out r))
        <= length (cells empty_world) + Z.to_nat 3)%nat.
Proof.
  apply (list_import_pem_memory_safe (H := sample_collaborators) (replicate 3 O) 3
           pem_second_malformed 0 empty_world); [closed | simpl; lia].
Defined.

Lemma list_import_writes_within_capacity_witness :
  exists r,
    gnutls_x509_crl_list_import (H := sample_collaborators) [7; 7; 7; 7]%nat 2
      pem_three GNUTLS_X509_FMT_PEM 0 empty_world = Some r
    /\ length (crls_out r) = length [7; 7; 7; 7]%nat
    /\ (forall i, (Z.to_nat 2 <= i)%nat -> crls_out r !! i = [7; 7; 7; 7]%nat !! i).
Proof.
  apply (list_import_writes_within_capacity (H := sample_collaborators)
           [7; 7; 7; 7]%nat 2 pem_three GNUTLS_X509_FMT_PEM 0 empty_world);
    [closed | simpl; lia].
Defined.

Lemma gnutls_x509_crl_import_keeps_objects_witness :
  alive (snd (gnutls_x509_crl_import (H := sample_collaborators) 1%nat [48; 1; 2]
                GNUTLS_X509_FMT_DER
                (set_cells empty_world
                   [Live {| crl := ASN1_created "PKIX1.CertificateList" |}])))
  = [true]
  /\ faults (snd (gnutls_x509_crl_import (H := sample_collaborators) 1%nat [48; 1; 2]
                    GNUTLS_X509_FMT_DER
                    (set_cells empty_world
                       [Live {| crl := ASN1_created "PKIX1.CertificateList" |}])))
     = 0%nat.
Proof.
  destruct (gnutls_x509_crl_import_keeps_objects (H := sample_collaborators) 1%nat
              [48; 1; 2] GNUTLS_X509_FMT_DER
              (set_cells empty_world
                 [Live {| crl := ASN1_created "PKIX1.CertificateList" |}]))
    as (Ha & Hf & _).
  split; [exact Ha | apply (Hf O); reflexivity].
Defined.

(** ** Lifecycle of a handle *)

Section Lifecycle.
Context `{Collaborators}.

(** X16. With DER input, when [asn1_create_element] fails inside
    [gnutls_x509_crl_init], the object is freed there and its address stays
    in slot 0; the [error:] loop of the importer then deinitializes slot 0
    again: the call returns the error of the adapter having freed the same
    object twice. *)
Theorem list_import_der_create_failure_frees_twice (crls : list addr)
    (crl_max : Z) (dat : bytes) (flags : Z) (w : world) (t : ASN1_TYPE) (e : Z) :
  crls <> [] ->
  1 <= crl_max ->
  alloc_fails (requests w) = false ->
  asn1_create_element "PKIX1.CertificateList" = (e, t) ->
  e <> ASN1_SUCCESS ->
  exists r,
    gnutls_x509_crl_list_import crls crl_max dat GNUTLS_X509_FMT_DER flags w = Some r
    /\ ret r = _gnutls_asn2err e
    /\ crls_out r !! O = Some (S (length (cells w)))
    /\ alive (world_out r) = alive w ++ [false]
    /\ faults (world_out r) = S (faults w).
Proof.
  intros Hcrls Hcap Halloc Hcreate He.
  unfold gnutls_x509_crl_list_import.
  destruct (crl_max <? 1) eqn:E; [apply Z.ltb_lt in E; lia|].
  unfold gnutls_x509_crl_init, gnutls_calloc. cbn [requests traced].
  rewrite Halloc, Hcreate.
  destruct (e =? ASN1_SUCCESS) eqn:Ee; [apply Z.eqb_eq in Ee; contradiction|].
  cbn [negb]. pose proof (_gnutls_asn2err_neg e) as Hneg.
  destruct (_gnutls_asn2err e <? 0) eqn:En; [|apply Z.ltb_ge in En; lia].
  destruct crls as [|c crls]; [contradiction|].
  eexists. split; [reflexivity|]. unfold import_error.
  cbn [ret crls_out crl_max_out world_out]. split; [reflexivity|].
  split; [reflexivity|].
  unfold alive. simpl.
  rewrite !lookup_app_r by lia. rewrite !Nat.sub_diag. simpl.
  rewrite !insert_app_r_alt by lia. rewrite !Nat.sub_diag. simpl.
  rewrite !lookup_app_r by lia. rewrite !Nat.sub_diag. simpl.
  rewrite fmap_app. split; reflexivity.
Qed.

(** X17. A handle that is initialized and then deinitialized leaves a
    freed object and no fault; deinitializing it a second time is a double
    free; deinitializing NULL does nothing. *)
Theorem init_then_deinit (w : world) (p : addr) (w1 : world) :
  gnutls_x509_crl_init w = (0, p, w1) ->
  alive w1 = alive w ++ [true]
  /\ alive (gnutls_x509_crl_deinit p w1) = alive w ++ [false]
  /\ faults (gnutls_x509_crl_deinit p w1) = faults w
  /\ faults (gnutls_x509_crl_deinit p (gnutls_x509_crl_deinit p w1)) = S (faults w)
  /\ gnutls_x509_crl_deinit O w1 = w1.
Proof.
  intros Hinit.
  destruct (gnutls_x509_crl_init_outcome w 0 p w1 Hinit)
    as [Hf [(Hr & _) | [(Hr & _) | (_ & Hp & Ha)]]]; [lia | lia |].
  subst p. split; [exact Ha|].
  assert (Hl : alive w1 !! length (cells w) = Some true).
  { rewrite Ha. rewrite lookup_app_r by (rewrite alive_length; lia).
    rewrite alive_length, Nat.sub_diag. reflexivity. }
  change (gnutls_x509_crl_deinit (S (length (cells w))) w1)
    with (gnutls_free (S (length (cells w))) w1).
  destruct (gnutls_free_live _ w1 Hl) as [Ha' Hf'].
  assert (Hfreed : alive w ++ [false] = alive (gnutls_free (S (length (cells w))) w1)).
  { rewrite Ha', Ha. rewrite insert_app_r_alt by (rewrite alive_length; lia).
    rewrite alive_length, Nat.sub_diag. reflexivity. }
  split; [symmetry; exact Hfreed|]. split; [congruence|]. split; [|reflexivity].
  set (w2 := gnutls_free (S (length (cells w))) w1) in *.
  change (gnutls_x509_crl_deinit (S (length (cells w))) w2)
    with (gnutls_free (S (length (cells w))) w2).
  assert (Hc : cells w2 !! length (cells w) = Some Freed).
  { assert (Hb : alive w2 !! length (cells w) = Some false).
    { rewrite <- Hfreed. rewrite lookup_app_r by (rewrite alive_length; lia).
      rewrite alive_length, Nat.sub_diag. reflexivity. }
    unfold alive in Hb. rewrite list_lookup_fmap in Hb.
    destruct (cells w2 !! length (cells w)) as [[o|]|]; simpl in Hb;
      try discriminate. reflexivity. }
  unfold gnutls_free at 1. rewrite Hc. simpl. congruence.
Qed.

(** X18. The fixed-capacity importer returns on every input: the scan for
    the next marker moves the pointer on by at least one byte, so the loop
    ends within as many rounds as the buffer has bytes, and one. *)
Theorem list_import_terminates (crls : list addr) (crl_max : Z) (dat : bytes)
    (format : gnutls_x509_crt_fmt_t) (flags : Z) (w : world) :
  exists r, gnutls_x509_crl_list_import crls crl_max dat format flags w = Some r.
Proof.
  destruct (list_import_returns crls crl_max dat format flags w) as (r & Hr & _).
  exists r. exact Hr.
Qed.

(** X19. [gnutls_x509_crl_list_import2] returns on every input, and its
    return value is never positive: on success it returns 0, hands back an
    array and reports the count through [*size]; on failure it hands back
    NULL and leaves [*size] as it was. *)
Theorem list_import2_returns_zero_or_error (size : Z) (dat : bytes)
    (format : gnutls_x509_crt_fmt_t) (flags : Z) (w : world) :
  exists r2,
    gnutls_x509_crl_list_import2 size dat format flags w = Some r2
    /\ ret2 r2 <= 0
    /\ (ret2 r2 = 0 -> exists arr, crls2 r2 = Some arr)
    /\ (ret2 r2 < 0 -> crls2 r2 = None /\ size2 r2 = size).
Proof.
  assert (Hfin : forall (r : import_result),
    let r2 := if ret r <? 0
              then {| ret2 := ret r; crls2 := None; size2 := size;
                      world2 := world_out r |}
              else {| ret2 := 0; crls2 := Some (crls_out r);
                      size2 := crl_max_out r; world2 := world_out r |} in
    ret2 r2 <= 0
    /\ (ret2 r2 = 0 -> exists arr, crls2 r2 = Some arr)
    /\ (ret2 r2 < 0 -> crls2 r2 = None /\ size2 r2 = size)).
  { intros r. destruct (ret r <? 0) eqn:E; simpl.
    - apply Z.ltb_lt in E. repeat split; lia.
    - split; [lia|]. split; [eauto | lia]. }
  assert (Hmem : forall w',
    let r2 := {| ret2 := GNUTLS_E_MEMORY_ERROR; crls2 := None; size2 := size;
                 world2 := w' |} in
    ret2 r2 <= 0
    /\ (ret2 r2 = 0 -> exists arr, crls2 r2 = Some arr)
    /\ (ret2 r2 < 0 -> crls2 r2 = None /\ size2 r2 = size)).
  { intros w'. simpl. unfold GNUTLS_E_MEMORY_ERROR. repeat split; lia. }
  unfold gnutls_x509_crl_list_import2, gnutls_malloc_array.
  destruct (alloc_fails (requests w)).
  { eexists. split; [reflexivity | apply Hmem]. }
  destruct (list_import_returns (replicate (Z.to_nat 1024) O) 1024 dat format
              GNUTLS_X509_CRT_LIST_IMPORT_FAIL_IF_EXCEED (requested w))
    as (r1 & Hr1 & _).
  rewrite Hr1.
  destruct (ret r1 =? GNUTLS_E_SHORT_MEMORY_BUFFER).
  - unfold gnutls_realloc_fast_array.
    destruct (alloc_fails (requests (world_out r1))).
    { eexists. split; [reflexivity | apply Hmem]. }
    destruct (list_import_returns
                (take (Z.to_nat (crl_max_out r1))
                   (crls_out r1 ++ replicate (Z.to_nat (crl_max_out r1)) O))
                (crl_max_out r1) dat format flags (requested (world_out r1)))
      as (r & Hr & _).
    rewrite Hr. eexists. split; [reflexivity | apply Hfin].
  - eexists. split; [reflexivity | apply Hfin].
Qed.

End Lifecycle.

Lemma list_import_der_create_failure_frees_twice_witness :
  exists r,
    gnutls_x509_crl_list_import (H := failing_create_collaborators) [7; 7]%nat 2
      [48; 1; 2] GNUTLS_X509_FMT_DER 0 empty_world = Some r
    /\ ret r = _gnutls_asn2err ASN1_ELEMENT_NOT_FOUND
    /\ crls_out r !! O = Some (S (length (cells empty_world)))
    /\ alive (world_out r) = alive empty_world ++ [false]
    /\ faults (world_out r) = S (faults empty_world).
Proof.
  apply (list_import_der_create_failure_frees_twice (H := failing_create_collaborators)
           [7; 7]%nat 2 [48; 1; 2] 0 empty_world ASN1_TYPE_EMPTY
           ASN1_ELEMENT_NOT_FOUND); closed.
Defined.

Lemma init_then_deinit_witness :
  alive (snd (gnutls_x509_crl_init (H := sample_collaborators) empty_world))
  = alive empty_world ++ [true]
  /\ alive (gnutls_x509_crl_deinit 1%nat
             (snd (gnutls_x509_crl_init (H := sample_collaborators) empty_world)))
     = alive empty_world ++ [false]
  /\ faults (gnutls_x509_crl_deinit 1%nat
               (snd (gnutls_x509_crl_init (H := sample_collaborators) empty_world)))
     = faults empty_world
  /\ faults (gnutls_x509_crl_deinit 1%nat
               (gnutls_x509_crl_deinit 1%nat
                  (snd (gnutls_x509_crl_init (H := sample_collaborators) empty_world))))
     = S (faults empty_world)
  /\ gnutls_x509_crl_deinit O
       (snd (gnutls_x509_crl_init (H := sample_collaborators) empty_world))
     = snd (gnutls_x509_crl_init (H := sample_collaborators) empty_world).
Proof.
  apply (init_then_deinit (H := sample_collaborators) empty_world 1%nat).
  reflexivity.
Defined.

Lemma list_import_der_decode_failure_tears_down_witness :
  exists r,
    gnutls_x509_crl_list_import (H := sample_collaborators) [7; 7]%nat 2 [49; 1; 2]
      GNUTLS_X509_FMT_DER 0 empty_world = Some r
    /\ ret r = _gnutls_asn2err ASN1_DER_ERROR
    /\ cells (world_out r) = cells empty_world ++ [Freed].
Proof.
  apply (list_import_der_decode_failure_tears_down (H := sample_collaborators)
           [7; 7]%nat 2 [49; 1; 2] 0 empty_world
           (ASN1_created "PKIX1.CertificateList") ASN1_TYPE_EMPTY ASN1_DER_ERROR);
    closed.
Defined.

Lemma list_import_pem_decode_failure_keeps_handle_witness :
  exists res,
    gnutls_x509_crl_list_import (H := sample_collaborators) [7; 7]%nat 2
      (pem_block "") GNUTLS_X509_FMT_PEM 0 empty_world = Some res
    /\ ret res = GNUTLS_E_BASE64_DECODING_ERROR
    /\ cells (world_out res)
       = cells empty_world ++ [Live {| crl := ASN1_created "PKIX1.CertificateList" |}].
Proof.
  apply (list_import_pem_decode_failure_keeps_handle (H := sample_collaborators)
           [7; 7]%nat 2 (pem_block "") 0 empty_world O
           (ASN1_created "PKIX1.CertificateList") GNUTLS_E_BASE64_DECODING_ERROR []);
    closed.
Defined.

(** ** Copying a CRL *)

Section CopyProperties.
Context `{Collaborators} `{Exporter}.

Lemma deref_insert_same (w : world) (i : nat) (d o : gnutls_x509_crl_int) :
  cells w !! i = Some (Live d) ->
  deref (set_cells w (<[i := Live o]> (cells w))) (S i) = Some o.
Proof.
  intros Hd. simpl. rewrite list_lookup_insert_eq; [reflexivity|].
  apply lookup_lt_Some in Hd. exact Hd.
Qed.

Lemma deref_insert_other (w : world) (i : nat) (c : cell) (q : addr) :
  q <> S i -> deref (set_cells w (<[i := c]> (cells w))) q = deref w q.
Proof.
  intros Hq. destruct q as [|j]; [reflexivity|]. simpl.
  rewrite list_lookup_insert_ne by congruence. reflexivity.
Qed.

Lemma deref_live (w : world) (p : addr) (d : gnutls_x509_crl_int) :
  deref w p = Some d -> exists i, p = S i /\ cells w !! i = Some (Live d).
Proof.
  destruct p as [|i]; [discriminate|]. intros Hd. exists i. split; [reflexivity|].
  unfold deref in Hd. destruct (cells w !! i) as [[o|]|]; try discriminate.
  congruence.
Qed.

(** X20. [_gnutls_x509_crl_cpy] is export followed by import: when the
    source encodes and the encoding decodes into the destination, the call
    returns 0, the destination holds the decoding of the source's DER
    encoding, every other object is as before, and nothing was allocated,
    freed or faulted. *)
Theorem crl_cpy_is_export_then_import (dest src : addr) (w : world)
    (o d : gnutls_x509_crl_int) (r : Z) (tmp : bytes) (t : ASN1_TYPE) :
  deref w src = Some o ->
  _gnutls_x509_export_int2 (crl o) GNUTLS_X509_FMT_DER PEM_CRL = (r, tmp) ->
  0 <= r ->
  deref w dest = Some d ->
  asn1_der_decoding (crl d) tmp = (ASN1_SUCCESS, t) ->
  exists w',
    _gnutls_x509_crl_cpy dest src w = (0, w')
    /\ deref w' dest = Some {| crl := t |}
    /\ (forall q, q <> dest -> deref w' q = deref w q)
    /\ alive w' = alive w
    /\ faults w' = faults w.
Proof.
  intros Hsrc Hexp Hr Hdest Hdec.
  destruct (deref_live _ _ _ Hdest) as (i & -> & Hi).
  unfold _gnutls_x509_crl_cpy, gnutls_x509_crl_export2. rewrite Hsrc, Hexp.
  destruct (r <? 0) eqn:E; [apply Z.ltb_lt in E; lia|].
  unfold gnutls_x509_crl_import, decode_into. rewrite Hi, Hdec.
  cbn [Z.eqb ASN1_SUCCESS negb Z.ltb Z.compare].
  eexists. split; [reflexivity|].
  split; [eapply deref_insert_same; exact Hi|].
  split; [intros q Hq; apply deref_insert_other; exact Hq|].
  split; [|reflexivity].
  unfold alive. simpl. rewrite list_fmap_insert. simpl. apply list_insert_id.
  rewrite list_lookup_fmap, Hi. reflexivity.
Qed.


End CopyProperties.

Lemma crl_cpy_is_export_then_import_witness :
  exists w',
    _gnutls_x509_crl_cpy (H := sample_collaborators) (H0 := sample_exporter) 2%nat 1%nat
      (set_cells empty_world
         [Live {| crl := ASN1_CertificateList sample_crl_revoked |};
          Live {| crl := ASN1_created "PKIX1.CertificateList" |}]) = (0, w')
    /\ deref w' 2%nat
       = Some {| crl := ASN1_CertificateList
                   {| tbsCertList_version := Some [1];
                      tbsCertList_revokedCertificates := None;
                      tbsCertList_crlExtensions := None;
                      signature_octets := [171; 205];
                      signature_unused_bits := 0 |} |}
    /\ (forall q, q <> 2%nat ->
        deref w' q
        = deref (set_cells empty_world
                   [Live {| crl := ASN1_CertificateList sample_crl_revoked |};
                    Live {| crl := ASN1_created "PKIX1.CertificateList" |}]) q)
    /\ alive w'
       = alive (set_cells empty_world
                  [Live {| crl := ASN1_CertificateList sample_crl_revoked |};
                   Live {| crl := ASN1_created "PKIX1.CertificateList" |}])
    /\ faults w'
       = faults (set_cells empty_world
                   [Live {| crl := ASN1_CertificateList sample_crl_revoked |};
                    Live {| crl := ASN1_created "PKIX1.CertificateList" |}]).
Proof.
  apply (crl_cpy_is_export_then_import (H := sample_collaborators)
           (H0 := sample_exporter) 2%nat 1%nat _
           {| crl := ASN1_CertificateList sample_crl_revoked |}
           {| crl := ASN1_created "PKIX1.CertificateList" |}
           0 [48; 171; 205]); first [reflexivity | closed].
Defined.

